(** * SicXEAssem: a two-pass SIC/XE assembler, embedded from SicXEAssem.py

    The program is Python 2 (statement-style [print x,], integer [/],
    [chr]-built byte strings).  It is embedded shallowly:

    - Python [str] values are [string]; characters are [ascii].
    - Python integers are [Z].  (CPython 2 prints a trailing [L] in [hex] of a
      [long]; every integer met below is far inside the machine range, where
      [hex] has no suffix.)
    - The module globals [LOCCTR] and [SYMTAB], the console and the target
      file form one [world] record, threaded through a state-and-exception
      monad [M]; an uncaught Python exception is the outcome [Raise].
    - The dictionaries [OPTAB], [FORM1], [FORM2], [REGS] are constant
      association lists; [SYMTAB] is a [gmap string string].

    The console carries the diagnostics ([print("Error: ...")]); the listing
    and symbol-table dump, which are presentation only, are not modelled. *)

From Stdlib Require Import ZArith Lia Ascii String List Bool.
From Stdlib Require Import HexString BinaryString DecimalString.
From stdpp Require Import gmap strings.

Local Open Scope Z_scope.

(** ** The Python runtime used by the program *)

Module Py.

Inductive exn := IndexError | ValueError | TypeError.

(** [len(s)] *)
Definition len (s : string) : Z := Z.of_nat (String.length s).

(** [s[i]]: a negative index counts from the end; out of range is
    [IndexError] (here [None]). *)
Definition getitem (s : string) (i : Z) : option ascii :=
  let j := if i <? 0 then i + len s else i in
  if j <? 0 then None else String.get (Z.to_nat j) s.

Fixpoint drop (n : nat) (s : string) : string :=
  match n, s with
  | O, _ => s
  | S _, EmptyString => EmptyString
  | S k, String _ r => drop k r
  end.

Fixpoint take (n : nat) (s : string) : string :=
  match n, s with
  | O, _ => EmptyString
  | S _, EmptyString => EmptyString
  | S k, String c r => String c (take k r)
  end.

(** Slice bounds: a negative bound counts from the end, then both are
    clamped to [0, len]. *)
Definition clamp (n i : Z) : Z :=
  if i <? 0 then Z.max 0 (i + n) else Z.min i n.

(** [s[start:stop]] *)
Definition slice (s : string) (start stop : Z) : string :=
  let a := clamp (len s) start in
  let b := clamp (len s) stop in
  take (Z.to_nat (b - a)) (drop (Z.to_nat a) s).

(** [s[start:]] and [s[:stop]] *)
Definition slice_from (s : string) (start : Z) : string :=
  slice s start (len s).
Definition slice_to (s : string) (stop : Z) : string :=
  slice s 0 stop.

Fixpoint zeros (n : nat) : string :=
  match n with
  | O => EmptyString
  | S k => String "0" (zeros k)
  end.

(** [s.zfill(width)]: zeros go after a leading sign character. *)
Definition zfill (width : Z) (s : string) : string :=
  if width <=? len s then s
  else
    let pad := zeros (Z.to_nat (width - len s)) in
    match s with
    | String c r =>
        if (Ascii.eqb c "+" || Ascii.eqb c "-")%bool
        then String c (pad +:+ r)
        else pad +:+ s
    | EmptyString => pad
    end.

(** [s.split(sep)] for a one-character separator. *)
Fixpoint split_go (sep : ascii) (cur s : string) : list string :=
  match s with
  | EmptyString => [String.rev cur]
  | String c r =>
      if Ascii.eqb c sep then String.rev cur :: split_go sep EmptyString r
      else split_go sep (String c cur) r
  end.
Definition split_on (sep : ascii) (s : string) : list string :=
  split_go sep EmptyString s.

(** [s.split()]: maximal runs of non-whitespace characters. *)
Definition split (s : string) : list string := String.words s.

(** *** [int(s, base)] *)

Definition ord (c : ascii) : Z := Z.of_N (N_of_ascii c).

Definition digit_value (c : ascii) : option Z :=
  let n := ord c in
  if (48 <=? n) && (n <=? 57) then Some (n - 48)
  else if (97 <=? n) && (n <=? 122) then Some (n - 87)
  else if (65 <=? n) && (n <=? 90) then Some (n - 55)
  else None.

Fixpoint parse_digits (base : Z) (s : string) (acc : Z) : option Z :=
  match s with
  | EmptyString => Some acc
  | String c r =>
      match digit_value c with
      | Some d => if d <? base then parse_digits base r (acc * base + d)
                  else None
      | None => None
      end
  end.

Fixpoint lstrip (s : string) : string :=
  match s with
  | EmptyString => EmptyString
  | String c r => if Ascii.is_space c then lstrip r else s
  end.

Fixpoint rstrip (s : string) : string :=
  match s with
  | EmptyString => EmptyString
  | String c r =>
      match rstrip r with
      | EmptyString => if Ascii.is_space c then EmptyString
                       else String c EmptyString
      | r' => String c r'
      end
  end.

(** The radix prefix [0x] / [0b] that [int] accepts for bases 16 and 2. *)
Definition radix_letter (base : Z) (c : ascii) : bool :=
  if base =? 16 then (Ascii.eqb c "x" || Ascii.eqb c "X")%bool
  else if base =? 2 then (Ascii.eqb c "b" || Ascii.eqb c "B")%bool
  else false.

Definition strip_radix (base : Z) (s : string) : string :=
  match s with
  | String c0 (String c r) =>
      if (Ascii.eqb c0 "0" && radix_letter base c)%bool then r else s
  | _ => s
  end.

(** An optional sign in front of the digits. *)
Definition split_sign (s : string) : Z * string :=
  match s with
  | String c r =>
      if Ascii.eqb c "-" then (-1, r)
      else if Ascii.eqb c "+" then (1, r)
      else (1, s)
  | EmptyString => (1, s)
  end.

(** [int(s, base)] on a [str]: surrounding whitespace, an optional sign,
    an optional radix prefix, then at least one digit below [base];
    anything else is [ValueError] (here [None]). *)
Definition int_of (base : Z) (s : string) : option Z :=
  let s1 := rstrip (lstrip s) in
  let '(sign, s2) := split_sign s1 in
  match strip_radix base s2 with
  | EmptyString => None
  | s3 => Z.mul sign <$> parse_digits base s3 0
  end.

(** [hex(n)], [bin(n)], [str(n)] on integers. *)
Definition hex (n : Z) : string := HexString.of_Z n.
Definition bin (n : Z) : string := BinaryString.of_Z n.
Definition str (n : Z) : string := NilZero.string_of_int (Z.to_int n).

(** [chr(n)]: [ValueError] outside [range(256)]. *)
Definition chr (n : Z) : option ascii :=
  if (0 <=? n) && (n <? 256) then Some (ascii_of_N (Z.to_N n)) else None.

(** A dictionary literal, looked up by key. *)
Definition dict := list (string * string).

Fixpoint get (d : dict) (k : string) : option string :=
  match d with
  | [] => None
  | (k', v) :: d' => if String.eqb k k' then Some v else get d' k
  end.

Definition contains (d : dict) (k : string) : bool :=
  match get d k with Some _ => true | None => false end.

End Py.

(** ** The catalogs (module constants) *)

Definition OPTAB : Py.dict :=
  [("ADD","18"); ("ADDF","58"); ("ADDR","90"); ("AND","40"); ("CLEAR","B4");
   ("COMP","28"); ("COMPF","88"); ("COMPR","A0"); ("DIV","24"); ("DIVF","64");
   ("DIVR","9C"); ("FIX","C4"); ("FLOAT","C0"); ("HIO","F4"); ("J","3C");
   ("JEQ","30"); ("JGT","34"); ("JLT","38"); ("JSUB","48"); ("LDA","00");
   ("LDB","68"); ("LDCH","50"); ("LDF","70"); ("LDL","08"); ("LDS","6C");
   ("LDT","74"); ("LDX","04"); ("LPS","D0"); ("MUL","20"); ("MULF","60");
   ("MULR","98"); ("NORM","C8"); ("OR","44"); ("RD","D8"); ("RMO","AC");
   ("RSUB","4C"); ("SHIFTL","A4"); ("SHIFTR","A8"); ("SIO","F0"); ("SSK","EC");
   ("STA","0C"); ("STB","78"); ("STCH","54"); ("STF","80"); ("STI","D4");
   ("STL","14"); ("STS","7C"); ("STSW","E8"); ("STT","84"); ("STX","10");
   ("SUB","1C"); ("SUBF","5C"); ("SUBR","94"); ("SVC","B0"); ("TD","E0");
   ("TIO","F8"); ("TIX","2C"); ("TIXR","B8"); ("WD","DC")].

Definition FORM1 : Py.dict :=
  [("FIX","C4"); ("FLOAT","C0"); ("HIO","F4"); ("NORM","C8"); ("SIO","F0");
   ("TIO","F8")].

Definition FORM2 : Py.dict :=
  [("ADDR","90"); ("CLEAR","B4"); ("COMPR","A0"); ("DIVR","9C"); ("MULR","98");
   ("RMO","AC"); ("SHIFTL","A4"); ("SHIFTR","A8"); ("SUBR","94"); ("SVC","B0");
   ("TIXR","B8")].

Definition REGS : Py.dict :=
  [("A","0"); ("X","1"); ("L","2"); ("B","3"); ("S","4"); ("T","5"); ("F","6");
   ("PC","8"); ("SW","9")].

(** ** Program state and the monad of statements *)

(** [LOCCTR] and [SYMTAB] are the module globals; [stdout] collects the
    diagnostics printed; [target] is the content written to the .exe file. *)
Record world := World {
  LOCCTR : Z;
  SYMTAB : gmap string string;
  stdout : list string;
  target : string
}.

Definition world0 : world := World 0 ∅ [] "".

Inductive outcome (A : Type) : Type :=
| Ret (a : A)
| Raise (e : Py.exn).
Arguments Ret {A} a.
Arguments Raise {A} e.

Definition M (A : Type) : Type := world -> outcome A * world.

Definition ret {A} (a : A) : M A := fun w => (Ret a, w).

Definition raise {A} (e : Py.exn) : M A := fun w => (Raise e, w).

Definition bind {A B} (m : M A) (k : A -> M B) : M B :=
  fun w =>
    match m w with
    | (Ret a, w') => k a w'
    | (Raise e, w') => (Raise e, w')
    end.

Notation "x <- m ;; k" := (bind m (fun x => k))
  (at level 100, m at next level, right associativity).
Notation "m ;;; k" := (bind m (fun _ => k))
  (at level 100, right associativity).

(** An optional result whose absence is the exception [e]. *)
Definition or_raise {A} (e : Py.exn) (o : option A) : M A :=
  match o with
  | Some a => ret a
  | None => raise e
  end.

(** Reads and writes of the globals, the console and the file. *)
Definition get_LOCCTR : M Z := fun w => (Ret (LOCCTR w), w).
Definition set_LOCCTR (v : Z) : M unit :=
  fun w => (Ret tt, World v (SYMTAB w) (stdout w) (target w)).
Definition get_SYMTAB : M (gmap string string) := fun w => (Ret (SYMTAB w), w).
Definition set_SYMTAB (k v : string) : M unit :=
  fun w => (Ret tt, World (LOCCTR w) (<[k := v]> (SYMTAB w)) (stdout w) (target w)).
Definition print (s : string) : M unit :=
  fun w => (Ret tt, World (LOCCTR w) (SYMTAB w) (stdout w ++ [s]) (target w)).
Definition write (s : string) : M unit :=
  fun w => (Ret tt, World (LOCCTR w) (SYMTAB w) (stdout w) (target w +:+ s)).

(** [s[i]] and [l[i]] as statements: [IndexError] out of range. *)
Definition char_at (s : string) (i : Z) : M ascii :=
  or_raise Py.IndexError (Py.getitem s i).
Definition item (l : list string) (i : nat) : M string :=
  or_raise Py.IndexError (l !! i).

(** [int(x, base)]: [TypeError] on [None], [ValueError] on a bad literal. *)
Definition int_ (base : Z) (x : option string) : M Z :=
  match x with
  | None => raise Py.TypeError
  | Some s => or_raise Py.ValueError (Py.int_of base s)
  end.

(** [str(x)] of a dictionary lookup: the text [None] when absent. *)
Definition str_opt (x : option string) : string :=
  match x with
  | Some s => s
  | None => "None"
  end.

(** [s += x] where [x] may be [None]: [TypeError]. *)
Definition concat_opt (s : string) (x : option string) : M string :=
  match x with
  | Some t => ret (s +:+ t)
  | None => raise Py.TypeError
  end.

(** ** Line Splitter *)

Definition untab (c : ascii) : ascii :=
  if Ascii.eqb c "009" then " "%char else c.

Fixpoint map_chars (f : ascii -> ascii) (s : string) : string :=
  match s with
  | EmptyString => EmptyString
  | String c r => String (f c) (map_chars f r)
  end.

Definition FindColumn (strline : string) : M (list string) :=
  let newstrline := map_chars untab strline in
  c <- char_at newstrline 0 ;;
  let columns := if Ascii.eqb c " " then ["    "] else [] in
  let precols := Py.split newstrline in
  let columns := columns ++ precols in
  (* pop while longer than 3, append "" while shorter than 3 *)
  let columns := firstn 3 columns in
  let columns := columns ++ replicate (3 - length columns)%nat "" in
  ret columns.

(** ** Location-Counter Pass *)

(** [hex(LOCCTR)[2:].zfill(5)] *)
Definition address_of (loc : Z) : string :=
  Py.zfill 5 (Py.slice_from (Py.hex loc) 2).

Definition add_LOCCTR (n : Z) : M unit :=
  loc <- get_LOCCTR ;; set_LOCCTR (loc + n).

(** [FindOffset] mutates its argument in place ([columns.insert(0, ...)]);
    the list it leaves behind is returned. *)
Definition FindOffset (columns : list string) : M (list string) :=
  c1 <- item columns 1 ;;
  (* the second operand of [or] is only evaluated when the first is false *)
  skip <- (if String.eqb c1 "BASE" then ret true
           else c0 <- item columns 0 ;;
                ch <- char_at c0 0 ;;
                ret (Ascii.eqb ch ".")) ;;
  if skip : bool then ret ("     " :: columns)
  else
    loc <- get_LOCCTR ;;
    let columns := address_of loc :: columns in
    c2 <- item columns 2 ;;
    (if String.eqb c2 "START" then
       c3 <- item columns 3 ;;
       v <- int_ 16 (Some c3) ;;
       set_LOCCTR v
     else if Py.contains FORM2 c2 then add_LOCCTR 2
     else if Py.contains FORM1 c2 then add_LOCCTR 1
     else
       ch <- char_at c2 0 ;;
       if Ascii.eqb ch "+" then add_LOCCTR 4
       else if String.eqb c2 "RESW" then
         c3 <- item columns 3 ;;
         n <- int_ 10 (Some c3) ;;
         add_LOCCTR (n * 3)
       else if String.eqb c2 "RESB" then
         c3 <- item columns 3 ;;
         n <- int_ 10 (Some c3) ;;
         add_LOCCTR n
       else if String.eqb c2 "WORD" then add_LOCCTR 3
       else if String.eqb c2 "BYTE" then
         c3 <- item columns 3 ;;
         ch3 <- char_at c3 0 ;;
         if Ascii.eqb ch3 "C" then add_LOCCTR (Py.len c3 - 3)
         else
           (* the operand is indexed again by the second test *)
           if Ascii.eqb ch3 "X" then
             let counter := Py.len c3 in
             let counter := counter - 3 in
             (* Python 2: [/] on integers is floor division *)
             add_LOCCTR (counter / 2)
           else add_LOCCTR 1
       else add_LOCCTR 3) ;;;
    ret columns.

Definition FillSymTab (columns : list string) : M unit :=
  c1 <- item columns 1 ;;
  if String.eqb c1 "    " then ret tt
  else if String.eqb c1 "." then ret tt
  else
    c0 <- item columns 0 ;;
    set_SYMTAB c1 c0.

(** The body of the [for line in inputFile] loop.  [parseinfo] holds the very
    list object that [FindOffset] then extends, so the row recorded is the one
    with the address column. *)
Definition FirstPass_line (line : string) : M (list string) :=
  cols <- FindColumn line ;;
  cols <- FindOffset cols ;;
  c1 <- item cols 1 ;;
  (if String.eqb c1 "." then ret tt else FillSymTab cols) ;;;
  ret cols.

(** [FirstPass], on the lines of the input file. *)
Fixpoint FirstPass (lines : list string) : M (list (list string)) :=
  match lines with
  | [] => ret []
  | line :: rest =>
      cols <- FirstPass_line line ;;
      parseinfo <- FirstPass rest ;;
      ret (cols :: parseinfo)
  end.

(** ** Encoding Pass: opcode byte and flag nibble *)

Definition NIbits (operand : string) : M Z :=
  c <- char_at operand 0 ;;
  if Ascii.eqb c "#" then ret 1
  else if Ascii.eqb c "@" then ret 2
  else ret 3.

(** [opcode] is the result of a dictionary lookup and may be [None]. *)
Definition FindOpcode (opcode : option string) (operand : string) : M string :=
  intval <- int_ 16 opcode ;;
  intval <- (if String.eqb (str_opt opcode) "4C" then ret (intval + 3)
             else n <- NIbits operand ;; ret (intval + n)) ;;
  let codeval := Py.slice_from (Py.hex intval) 2 in
  ret (Py.zfill 2 codeval).

(** The range test
    [(int(curraddr,16)+3) - int(labeladdr,16) > 2047 or ... < -2048];
    both operands of [or] evaluate the same two conversions. *)
Definition out_of_PC_range (curraddr : string) (labeladdr : option string)
  : M bool :=
  c <- int_ 16 (Some curraddr) ;;
  l <- int_ 16 labeladdr ;;
  ret (((c + 3) - l >? 2047) || ((c + 3) - l <? -2048)).

Definition XBPE (opcode operand curraddr : string) : M string :=
  let midbits := 0 in
  if String.eqb operand "" then ret "0"
  else
    last <- char_at operand (Py.len operand - 1) ;;
    let '(midbits, operand) :=
      if Ascii.eqb last "X"
      then (midbits + 8, Py.slice_to operand (Py.len operand - 2))
      else (midbits, operand) in
    o0 <- char_at opcode 0 ;;
    if Ascii.eqb o0 "+" then
      let midbits := midbits + 1 in
      ret (Py.slice_from (Py.hex midbits) 2)
    else
      c0 <- char_at operand 0 ;;
      let operand :=
        if (Ascii.eqb c0 "#" || Ascii.eqb c0 "@")%bool
        then Py.slice_from operand 1 else operand in
      symtab <- get_SYMTAB ;;
      midbits <-
        match symtab !! operand with
        | Some labeladdr =>
            far <- out_of_PC_range curraddr (Some labeladdr) ;;
            if far : bool then ret (midbits + 4) else ret (midbits + 2)
        | None => ret midbits
        end ;;
      ret (Py.slice_from (Py.hex midbits) 2).

(** ** Encoding Pass: format 4 *)

Definition Format4 (opcode operand curraddr : string) : M string :=
  let formatstring := "" in
  let code := Py.get OPTAB (Py.slice_from opcode 1) in
  s <- FindOpcode code operand ;;
  let formatstring := formatstring +:+ s in
  s <- XBPE opcode operand curraddr ;;
  let formatstring := formatstring +:+ s in
  if String.eqb opcode "RSUB" then ret (formatstring +:+ "0000")
  else
    c0 <- char_at operand 0 ;;
    symtab <- get_SYMTAB ;;
    if (Ascii.eqb c0 "#" || Ascii.eqb c0 "@")%bool then
      let newstr := Py.slice_from operand 1 in
      match symtab !! newstr with
      | Some a => ret (formatstring +:+ a)
      | None =>
          v <- int_ 10 (Some newstr) ;;
          ret (formatstring +:+ Py.zfill 5 (Py.slice_from (Py.hex v) 2))
      end
    else
      last <- char_at operand (Py.len operand - 1) ;;
      if Ascii.eqb last "X" then
        match symtab !! Py.slice_to operand (Py.len operand - 2) with
        | Some a => ret (formatstring +:+ a)
        | None => print "Error: Operand not a label." ;;; ret formatstring
        end
      else
        match symtab !! operand with
        | Some a => ret (formatstring +:+ a)
        | None =>
            print "Error: Incorrect format 4 instruction" ;;; ret formatstring
        end.

(** ** Displacement Resolver *)

Definition flip_bit (c : ascii) : ascii :=
  if Ascii.eqb c "0" then "1"%char else "0"%char.

Definition TwoComp (disp : Z) : M string :=
  let bin_disp := Py.zfill 12 (Py.slice_from (Py.bin disp) 3) in
  let newbin := map_chars flip_bit bin_disp in
  v <- int_ 2 (Some newbin) ;;
  let hexdisp := Py.zfill 3 (Py.slice_from (Py.hex (v + 1)) 2) in
  ret hexdisp.

(** ** Encoding Pass: format 3 *)

Definition Format3 (opcode operand curraddr : string)
    (baseaddr : option string) : M string :=
  let formatstring := "" in
  if String.eqb opcode "START" then ret ""
  else if String.eqb opcode "END" then ret ""
  else
    let codeval := str_opt (Py.get OPTAB opcode) in
    s <- FindOpcode (Some codeval) operand ;;
    let formatstring := formatstring +:+ s in
    s <- XBPE opcode operand curraddr ;;
    let formatstring := formatstring +:+ s in
    if String.eqb opcode "RSUB" then ret (formatstring +:+ "000")
    else
      c <- int_ 16 (Some curraddr) ;;
      let nextaddr := c + 3 in
      c0 <- char_at operand 0 ;;
      symtab <- get_SYMTAB ;;
      if (Ascii.eqb c0 "#" || Ascii.eqb c0 "@")%bool then
        match symtab !! Py.slice_from operand 1 with
        | Some labeladdr =>
            far <- out_of_PC_range curraddr (Some labeladdr) ;;
            if far : bool then
              l <- int_ 16 (Some labeladdr) ;;
              b <- int_ 16 baseaddr ;;
              let basevar := l - b in
              ret (formatstring +:+ Py.zfill 3 (Py.str basevar))
            else
              l <- int_ 16 (Some labeladdr) ;;
              let disp := l - nextaddr in
              if disp <? 0 then
                t <- TwoComp disp ;;
                ret (formatstring +:+ Py.zfill 3 t)
              else
                ret (formatstring +:+ Py.zfill 3 (Py.slice_from (Py.hex disp) 2))
        | None =>
            v <- int_ 10 (Some (Py.slice_from operand 1)) ;;
            ret (formatstring +:+ Py.zfill 3 (Py.slice_from (Py.hex v) 2))
        end
      else
        last <- char_at operand (Py.len operand - 1) ;;
        let operand :=
          if Ascii.eqb last "X"
          then Py.slice_to operand (Py.len operand - 2) else operand in
        let labeladdr := str_opt (symtab !! operand) in
        far <- out_of_PC_range curraddr (symtab !! operand) ;;
        if far : bool then
          l <- int_ 16 (Some labeladdr) ;;
          b <- int_ 16 baseaddr ;;
          let basevar := l - b in
          ret (formatstring +:+ Py.zfill 3 (Py.str basevar))
        else
          l <- int_ 16 (Some labeladdr) ;;
          if l >? nextaddr then
            let intlabel := l in
            let dispint := intlabel - nextaddr in
            let disp := Py.zfill 3 (Py.slice_from (Py.hex dispint) 2) in
            ret (formatstring +:+ disp)
          else
            let intlabel := l in
            let disp := intlabel - nextaddr in
            t <- TwoComp disp ;;
            ret (formatstring +:+ t).

(** ** Encoding Pass: format 2 *)

Fixpoint has_char (c : ascii) (s : string) : bool :=
  match s with
  | EmptyString => false
  | String c' r => (Ascii.eqb c' c || has_char c r)%bool
  end.

Definition Format2 (opcode operand : string) : M string :=
  let formatstring := "" in
  formatstring <- concat_opt formatstring (Py.get FORM2 opcode) ;;
  let tworegs := has_char "," operand in
  if tworegs then
    let reglist := Py.split_on "," operand in
    r0 <- item reglist 0 ;;
    both <- (if Py.contains REGS r0
             then r1 <- item reglist 1 ;; ret (Py.contains REGS r1)
             else ret false) ;;
    if both : bool then
      r0 <- item reglist 0 ;;
      formatstring <- concat_opt formatstring (Py.get REGS r0) ;;
      r1 <- item reglist 1 ;;
      concat_opt formatstring (Py.get REGS r1)
    else if (String.eqb opcode "SHIFTL" || String.eqb opcode "SHIFTR")%bool then
      r0 <- item reglist 0 ;;
      formatstring <- concat_opt formatstring (Py.get REGS r0) ;;
      r1 <- item reglist 1 ;;
      n <- int_ 10 (Some r1) ;;
      let reg2 := n - 1 in
      ret (formatstring +:+ Py.slice_from (Py.hex reg2) 2)
    else
      print "1" ;;; ret formatstring
  else if Py.contains REGS operand then
    formatstring <- concat_opt formatstring (Py.get REGS operand) ;;
    ret (formatstring +:+ "0")
  else
    n <- int_ 10 (Some operand) ;;
    let formatstring := formatstring +:+ Py.slice_from (Py.hex n) 2 in
    ret (formatstring +:+ "0").

Definition FindForm (opcode : string) : M Z :=
  c <- char_at opcode 0 ;;
  if Ascii.eqb c "+" then ret 4 else ret 3.

(** ** Encoding Pass: the record loop *)

(** [hex(ord(char))[2:]] for each character of a [C'...'] literal. *)
Fixpoint hex_of_chars (s : string) : string :=
  match s with
  | EmptyString => EmptyString
  | String c r => Py.slice_from (Py.hex (Py.ord c)) 2 +:+ hex_of_chars r
  end.

(** [instrform[i:i+2] for i in range(0, len(instrform), 2)] *)
Fixpoint chunks2 (s : string) : list string :=
  match s with
  | EmptyString => []
  | String a EmptyString => [String a EmptyString]
  | String a (String b r) => String a (String b EmptyString) :: chunks2 r
  end.

(** [''.join(chr(int(chunk, 16)) for chunk in ...)] *)
Fixpoint to_bytes (chunks : list string) : M string :=
  match chunks with
  | [] => ret ""
  | ch :: rest =>
      v <- int_ 16 (Some ch) ;;
      c <- or_raise Py.ValueError (Py.chr v) ;;
      r <- to_bytes rest ;;
      ret (String c r)
  end.

(** What one iteration of the loop leaves: the base register value, and the
    row, extended with its encoded form unless the iteration ended in
    [continue]. *)
Definition SecondPass_elem (basevar : option string) (elem : list string)
  : M (option string * list string) :=
  let instrform := "" in
  code <- item elem 2 ;;
  (* [Some (basevar, instrform)] falls through to the write; [None] is [continue] *)
  r <-
    (if String.eqb code "RESB" then
       e3 <- item elem 3 ;;
       n <- int_ 10 (Some e3) ;;
       let addzero := n * 2 in
       ret (Some (basevar, instrform +:+ Py.zeros (Z.to_nat addzero)))
     else if String.eqb code "RESW" then
       e3 <- item elem 3 ;;
       n <- int_ 10 (Some e3) ;;
       let addzero := n * 6 in
       ret (Some (basevar, instrform +:+ Py.zeros (Z.to_nat addzero)))
     else
       e1 <- item elem 1 ;;
       c <- char_at e1 0 ;;
       if Ascii.eqb c "." then ret None
       else if String.eqb code "START" then ret None
       else if String.eqb code "END" then ret None
       else if String.eqb code "BYTE" then
         e3 <- item elem 3 ;;
         c3 <- char_at e3 0 ;;
         if Ascii.eqb c3 "X" then
           ret (Some (basevar,
                      instrform +:+ Py.zfill 2 (Py.slice e3 2 (Py.len e3 - 1))))
         else if Ascii.eqb c3 "C" then
           let newstr := Py.slice e3 2 (Py.len e3 - 1) in
           ret (Some (basevar, instrform +:+ hex_of_chars newstr))
         else
           (* [hex(newstr)] on a [str] *)
           raise Py.TypeError
       else if String.eqb code "WORD" then
         e3 <- item elem 3 ;;
         n <- int_ 10 (Some e3) ;;
         ret (Some (basevar,
                    instrform +:+ Py.zfill 6 (Py.slice_from (Py.hex n) 2)))
       else if String.eqb code "BASE" then
         e3 <- item elem 3 ;;
         symtab <- get_SYMTAB ;;
         ret (Some (symtab !! e3, instrform))
       else if Py.contains FORM1 code then
         s <- concat_opt instrform (Py.get FORM1 code) ;;
         ret (Some (basevar, s))
       else if Py.contains FORM2 code then
         e3 <- item elem 3 ;;
         s <- Format2 code e3 ;;
         ret (Some (basevar, instrform +:+ s))
       else if (Py.contains OPTAB code
                || Py.contains OPTAB (Py.slice_from code 1))%bool then
         format <- FindForm code ;;
         if format =? 4 then
           e3 <- item elem 3 ;;
           e0 <- item elem 0 ;;
           s <- Format4 code e3 e0 ;;
           ret (Some (basevar, instrform +:+ s))
         else if format =? 3 then
           e3 <- item elem 3 ;;
           e0 <- item elem 0 ;;
           s <- Format3 code e3 e0 basevar ;;
           ret (Some (basevar, instrform +:+ s))
         else ret (Some (basevar, instrform))
       else
         print "Error: Instruction not valid - " ;;;
         print code ;;;
         ret (Some (basevar, instrform))) ;;
  match r with
  | None => ret (basevar, elem)
  | Some (basevar, instrform) =>
      let elem := elem ++ [instrform] in
      writebytes <- to_bytes (chunks2 instrform) ;;
      write writebytes ;;;
      ret (basevar, elem)
  end.

Fixpoint SecondPass_loop (basevar : option string)
    (infolist : list (list string)) : M (list (list string)) :=
  match infolist with
  | [] => ret []
  | elem :: rest =>
      r <- SecondPass_elem basevar elem ;;
      rows <- SecondPass_loop (fst r) rest ;;
      ret (snd r :: rows)
  end.

(** [SecondPass(infolist, target)]; the rows, as the loop leaves them, are
    returned. *)
Definition SecondPass (infolist : list (list string))
  : M (list (list string)) :=
  let basevar := Some "0" in
  SecondPass_loop basevar infolist.

(** [main]: both passes over the lines of the source file. *)
Definition main (lines : list string) : M (list (list string)) :=
  parseline <- FirstPass lines ;;
  SecondPass parseline.

(** The bytes of a written string, as numbers. *)
Fixpoint ords (s : string) : list Z :=
  match s with
  | EmptyString => []
  | String c r => Py.ord c :: ords r
  end.

Arguments address_of : simpl never.

(** * The specification's notions *)

(** ** Location-Counter Pass: the length of each operation (spec 4.2) *)

Fixpoint all_chars (f : ascii -> bool) (s : string) : bool :=
  match s with
  | EmptyString => true
  | String c r => f c && all_chars f r
  end.

Definition is_decimal_digit (c : ascii) : bool :=
  (48 <=? Py.ord c) && (Py.ord c <=? 57).

(** A bare numeric literal: one decimal digit or more, nothing else. *)
Definition bare_numeric (s : string) : bool :=
  negb (String.eqb s "") && all_chars is_decimal_digit s.

(** [op_length op operand n]: the specification gives the operation [op], with
    operand [operand], the length [n].  One rule per line of the list in the
    specification, in its words. *)
Inductive op_length : string -> string -> Z -> Prop :=
| len_format2 op operand :
    Py.contains FORM2 op = true -> op_length op operand 2
| len_format1 op operand :
    Py.contains FORM1 op = true -> op_length op operand 1
| len_extended op operand :
    op_length (String "+" op) operand 4
| len_RESW operand n :
    Py.int_of 10 operand = Some n -> op_length "RESW" operand (3 * n)
| len_RESB operand n :
    Py.int_of 10 operand = Some n -> op_length "RESB" operand n
| len_WORD operand :
    op_length "WORD" operand 3
| len_BYTE_C text :
    op_length "BYTE" ("C'" +:+ text +:+ "'") (Py.len text)
| len_BYTE_X digits :
    op_length "BYTE" ("X'" +:+ digits +:+ "'") (Py.len digits / 2)
| len_BYTE_numeric operand :
    bare_numeric operand = true -> op_length "BYTE" operand 1
| len_other op operand c :
    Py.contains FORM2 op = false -> Py.contains FORM1 op = false ->
    Py.getitem op 0 = Some c -> c <> "+"%char ->
    op <> "RESW" -> op <> "RESB" -> op <> "WORD" -> op <> "BYTE" ->
    op_length op operand 3.

(** ** Line Splitter: an empty or whitespace-only line *)

Definition blank (line : string) : bool := all_chars Ascii.is_space line.

(** ** Displacement Resolver: two's complement on 12 bits (spec 4.4) *)

(** A 12-bit field read as a signed two's-complement number. *)
Definition decode12 (field : Z) : Z :=
  if field <? 2048 then field else field - 4096.

(** The specification's encoder: invert each of the 12 bits of [|d|], add 1,
    print as 3 hexadecimal digits. *)
Definition invert12_plus1 (d : Z) : string :=
  Py.zfill 3 (Py.slice_from (Py.hex (Z.lxor (Z.abs d) 4095 + 1)) 2).

(** [TwoComp d] returns what the specification's encoder gives, on 3 digits,
    and the field decodes to [d]. *)
Definition TwoComp_agrees (d : Z) : bool :=
  match TwoComp d world0 with
  | (Ret h, _) =>
      String.eqb h (invert12_plus1 d)
      && Nat.eqb (String.length h) 3
      && match Py.int_of 16 h with
         | Some field => decode12 field =? d
         | None => false
         end
  | (Raise _, _) => false
  end.

(** ** Operands and flags *)

Definition last_char (s : string) : option ascii :=
  Py.getitem s (Py.len s - 1).

(** The operand without its addressing-mode prefix [#] or [@]. *)
Definition unmarked (operand : string) : string :=
  match Py.getitem operand 0 with
  | Some c => if (Ascii.eqb c "#" || Ascii.eqb c "@")%bool
              then Py.slice_from operand 1 else operand
  | None => operand
  end.

(** Whether the operand's last character is X: what the code takes for the
    index mark [,X]. *)
Definition ends_in_X (operand : string) : bool :=
  match last_char operand with
  | Some c => Ascii.eqb c "X"
  | None => false
  end.

(** The operand as the code goes on with it after the index test: without
    its last two characters when its last character is X. *)
Definition unindexed (operand : string) : string :=
  if ends_in_X operand
  then Py.slice_to operand (Py.len operand - 2) else operand.

(** The label a format-4 operand names for the code: the text after a
    leading [#] or [@]; else, when the last character is X, the operand
    without its last two characters (any final X is taken for the index mark:
    [BUFFER,X] names [BUFFER], and [MAX] names [M]); else the operand
    itself. *)
Definition format4_label (operand : string) : string :=
  match Py.getitem operand 0 with
  | Some c =>
      if (Ascii.eqb c "#" || Ascii.eqb c "@")%bool
      then Py.slice_from operand 1
      else match last_char operand with
           | Some "X"%char => Py.slice_to operand (Py.len operand - 2)
           | _ => operand
           end
  | None => operand
  end.


(** ** Frame: a statement that leaves the globals alone *)

Definition frame {A} (m : M A) : Prop :=
  forall w, LOCCTR (snd (m w)) = LOCCTR w /\ SYMTAB (snd (m w)) = SYMTAB w.

(** ** Programs and tables used as test inputs *)

(** Label [A] at 0x802 and label [B] at 0x803. *)
Definition world_AB : world :=
  World 0 (<["A" := "00802"]> (<["B" := "00803"]> ∅)) [] "".

(** Label [A] at 0x1000, with the base register at 0xff6. *)
Definition world_base : world :=
  World 0 (<["A" := "01000"]> ∅) [] "".

(** The lines a source file yields when it is iterated: each one ends with a
    line feed. *)
Definition file_lines (text : list string) : list string :=
  map (fun l => l +:+ String "010" "") text.

Definition prog_undefined3 : list string :=
  file_lines ["P START 0"; "F LDA UNDEF"; "A WORD 5"].

Definition prog_undefined3_indirect : list string :=
  file_lines ["P START 0"; "F LDA @UNDEF"; "A WORD 5"].

Definition prog_undefined4 : list string :=
  file_lines ["P START 0"; "F +LDA UNDEF"; "A WORD 5"].

(** The scenario of the specification's section 8. *)
Definition prog_scenario : list string :=
  file_lines ["COPY START 1000"; "FIRST LDA ALPHA"; "ALPHA WORD 5"].

Definition prog_end : list string :=
  file_lines ["COPY START 0"; "FIRST RSUB"; " END FIRST"].

(** * The output file's name *)

(** [NewFile(filename)]: the last four characters of the name give way to
    [.exe]. *)
Definition NewFile (filename : string) : string :=
  Py.slice_to filename (Py.len filename - 4) +:+ ".exe".

(** * Notions for the properties of the two passes *)

(** ** Source lines as text *)

(** A field of a source line: at least one character, none of them white
    space. *)
Definition is_word (s : string) : bool :=
  negb (String.eqb s "") && all_chars (fun c => negb (Ascii.is_space c)) s.

(** The text of a line, given as its fields, each with the white space that
    follows it. *)
Fixpoint join_fields (fs : list (string * string)) : string :=
  match fs with
  | [] => ""
  | (word, gap) :: rest => word +:+ gap +:+ join_fields rest
  end.

(** Every field is a word and what follows it is white space, which may be
    missing only after the last field. *)
Fixpoint fields_ok (fs : list (string * string)) : bool :=
  match fs with
  | [] => true
  | (word, gap) :: rest =>
      is_word word && blank gap
      && (negb (String.eqb gap "")
          || match rest with [] => true | _ :: _ => false end)
      && fields_ok rest
  end.

(** A line that starts with a space or a tab has no label. *)
Definition leading_blank (lead : string) : bool :=
  match lead with
  | String c _ => Ascii.eqb c " " || Ascii.eqb c "009"
  | EmptyString => false
  end.

(** The first three of a list of fields, with empty fields for the missing
    ones. *)
Definition three_fields (l : list string) : list string :=
  match l with
  | [] => [""; ""; ""]
  | [a] => [a; ""; ""]
  | [a; b] => [a; b; ""]
  | a :: b :: c :: _ => [a; b; c]
  end.

(** ** Statements *)

(** What a statement's result satisfies whenever it returns. *)
Definition ensures {A} (m : M A) (P : A -> Prop) : Prop :=
  forall w a w', m w = (Ret a, w') -> P a.

(** A statement that leaves a component [f] of the state alone, whether it
    returns or raises. *)
Definition keeps {T A} (f : world -> T) (m : M A) : Prop :=
  forall w, f (snd (m w)) = f w.

(** A statement that has written nothing to the file when it raises. *)
Definition atomic {A} (m : M A) : Prop :=
  forall w e, fst (m w) = Raise e -> target (snd (m w)) = target w.

(** The directives the record loop knows by name. *)
Definition is_directive (code : string) : bool :=
  String.eqb code "RESB" || String.eqb code "RESW" || String.eqb code "START"
  || String.eqb code "END" || String.eqb code "BYTE" || String.eqb code "WORD"
  || String.eqb code "BASE".

(** [n] bytes of value zero. *)
Fixpoint nuls (n : nat) : string :=
  match n with
  | O => EmptyString
  | S k => String "000" (nuls k)
  end.

Definition is_hex_digit (c : ascii) : bool :=
  match Py.digit_value c with
  | Some d => d <? 16
  | None => false
  end.

(** The value of each pair of hexadecimal digits (a last digit alone counts
    for itself). *)
Fixpoint pair_values (s : string) : list Z :=
  match s with
  | EmptyString => []
  | String a EmptyString => [default 0 (Py.digit_value a)]
  | String a (String b r) =>
      (16 * default 0 (Py.digit_value a) + default 0 (Py.digit_value b))
      :: pair_values r
  end.

(** A character whose code takes two hexadecimal digits. *)
Definition two_digit_char (c : ascii) : bool := 16 <=? Py.ord c.

(** Big-endian value of a list of bytes. *)
Definition be_value (bytes : list Z) : Z :=
  fold_left (fun a b => a * 256 + b) bytes 0.

(** The n,i bits the operand's first character selects. *)
Definition ni_bits (c : ascii) : Z :=
  if Ascii.eqb c "#" then 1 else if Ascii.eqb c "@" then 2 else 3.

(** * Proofs *)

(** ** Tactics for running statements *)

(** Unfold the monad's plumbing. *)
Ltac run :=
  cbv beta iota zeta
      delta [bind ret raise or_raise get_LOCCTR set_LOCCTR add_LOCCTR
             get_SYMTAB print write int_ concat_opt char_at item].

(** Decide comparisons of known strings and characters, and list lookups. *)
Ltac tests :=
  cbn [String.eqb Ascii.eqb Bool.eqb orb andb negb lookup list_lookup].

(** Evaluate the tests whose arguments are known. *)
Ltac known :=
  repeat match goal with
    | |- context [Py.getitem ?s ?i] =>
        let v := eval vm_compute in (Py.getitem s i) in
        match v with Some _ => idtac | None => idtac end;
        progress change (Py.getitem s i) with v
    | |- context [Py.contains ?d ?k] =>
        let v := eval vm_compute in (Py.contains d k) in
        match v with true => idtac | false => idtac end;
        progress change (Py.contains d k) with v
    | |- context [Z.eqb ?a ?b] =>
        let v := eval vm_compute in (Z.eqb a b) in
        match v with true => idtac | false => idtac end;
        progress change (Z.eqb a b) with v
    end.

Ltac run' := repeat (progress (run; known; tests; cbv beta iota)).

(** Evaluate the value of a known digit, and its comparison with 16. *)
Ltac eval_digit :=
  match goal with
  | |- context [Py.digit_value ?c] =>
      let v := eval vm_compute in (Py.digit_value c) in
      change (Py.digit_value c) with v; cbv beta iota;
      match goal with
      | |- context [?d <? 16] =>
          let b := eval vm_compute in (d <? 16) in
          change (d <? 16) with b; cbv beta iota
      end
  end.

(** Go through the entries of a dictionary literal. *)
Ltac each_entry H :=
  simpl in H;
  repeat (destruct H as [H | H]; [injection H as <- <- |]);
  try contradiction.

(** ** Strings, slices and dictionaries *)

Lemma string_length_app (s t : string) :
  String.length (s +:+ t) = (String.length s + String.length t)%nat.
Proof. induction s as [| c s IH]; simpl; [reflexivity | now rewrite IH]. Qed.

Lemma string_length_drop (k : nat) (s : string) :
  String.length (Py.drop k s) = (String.length s - k)%nat.
Proof.
  revert s; induction k as [| k IH]; intros [| c s]; simpl; auto.
Qed.

Lemma take_all (n : nat) (s : string) :
  (String.length s <= n)%nat -> Py.take n s = s.
Proof.
  revert s; induction n as [| n IH]; intros [| c s]; simpl; intros H;
    try reflexivity; try lia.
  f_equal. apply IH. lia.
Qed.

(** [s[k:]] drops the first [k] characters. *)
Lemma slice_from_drop (k : nat) (s : string) :
  (k <= String.length s)%nat -> Py.slice_from s (Z.of_nat k) = Py.drop k s.
Proof.
  intros H. unfold Py.slice_from, Py.slice, Py.clamp, Py.len.
  destruct (Z.ltb_spec (Z.of_nat k) 0); [lia |].
  destruct (Z.ltb_spec (Z.of_nat (String.length s)) 0); [lia |].
  rewrite (Z.min_l (Z.of_nat k)) by lia. rewrite Nat2Z.id.
  apply take_all. rewrite string_length_drop. lia.
Qed.

Lemma get_last (r : string) : forall a,
  exists c, String.get (String.length r) (String a r) = Some c.
Proof.
  induction r as [| b r IH]; intros a; simpl; [now exists a | apply IH].
Qed.

(** [s[len(s) - 1]] exists for a non-empty string. *)
Lemma last_char_Some (s : string) : s <> "" -> exists c, last_char s = Some c.
Proof.
  destruct s as [| a r]; [contradiction | intros _].
  unfold last_char, Py.getitem, Py.len.
  replace (Z.of_nat (String.length (String a r)) - 1)
    with (Z.of_nat (String.length r)) by (simpl String.length; lia).
  assert (E : (Z.of_nat (String.length r) <? 0) = false)
    by (apply Z.ltb_ge; lia).
  rewrite E. cbv beta iota zeta. rewrite E, Nat2Z.id. apply get_last.
Qed.

Lemma eqb_false (s t : string) : s <> t -> String.eqb s t = false.
Proof. apply String.eqb_neq. Qed.

Lemma ascii_eqb_false (c d : ascii) : c <> d -> Ascii.eqb c d = false.
Proof. apply Ascii.eqb_neq. Qed.

Lemma get_In (d : Py.dict) (k v : string) :
  Py.get d k = Some v -> In (k, v) d.
Proof.
  induction d as [| [k' v'] d IH]; simpl; [discriminate |].
  destruct (String.eqb_spec k k') as [-> | _].
  - intros [= ->]. now left.
  - intros H. right. now apply IH.
Qed.

Lemma contains_In (d : Py.dict) (k : string) :
  Py.contains d k = true -> exists v, In (k, v) d.
Proof.
  unfold Py.contains. destruct (Py.get d k) as [v |] eqn:H; [| discriminate].
  intros _. exists v. now apply get_In.
Qed.

(** The catalogs: the two short formats share no mnemonic, and neither holds a
    directive. *)
Lemma FORM1_not_FORM2 (op : string) :
  Py.contains FORM1 op = true -> Py.contains FORM2 op = false.
Proof. intros H. apply contains_In in H as [v H]. each_entry H; reflexivity. Qed.

(** Every opcode of the catalog is a hexadecimal literal. *)
Lemma OPTAB_codes (m code : string) :
  Py.get OPTAB m = Some code -> exists v, Py.int_of 16 code = Some v.
Proof.
  intros H. apply get_In in H. each_entry H; eexists; reflexivity.
Qed.

(** ** [int(hex(n)[2:].zfill(5), 16) == n] *)

(** Digits never look like whitespace, a sign or a radix letter. *)
Lemma digit_value_facts (c : ascii) (d : Z) :
  Py.digit_value c = Some d -> d < 16 ->
  Ascii.is_space c = false /\ Ascii.eqb c "+" = false /\
  Ascii.eqb c "-" = false /\ Py.radix_letter 16 c = false.
Proof.
  destruct c as [[] [] [] [] [] [] [] []]; vm_compute; intros H Hd;
    try discriminate H; try (injection H as <-; discriminate Hd);
    repeat split.
Qed.

Lemma parse_digits_rstrip (s : string) : forall acc v,
  Py.parse_digits 16 s acc = Some v -> Py.rstrip s = s.
Proof.
  induction s as [| c r IH]; intros acc v H; [reflexivity |].
  simpl in H. destruct (Py.digit_value c) as [d |] eqn:Hc; [| discriminate].
  destruct (Z.ltb_spec d 16) as [Hd |]; [| discriminate].
  destruct (digit_value_facts c d Hc Hd) as (Hsp & _).
  simpl. rewrite (IH _ _ H). destruct r; [now rewrite Hsp | reflexivity].
Qed.

(** A non-empty string of hexadecimal digits reads as its value. *)
Lemma int_of_digits (s : string) (v : Z) :
  s <> "" -> Py.parse_digits 16 s 0 = Some v -> Py.int_of 16 s = Some v.
Proof.
  intros Hne H. unfold Py.int_of.
  destruct s as [| c r]; [contradiction |].
  pose proof (parse_digits_rstrip _ _ _ H) as Hr.
  simpl in H. destruct (Py.digit_value c) as [d |] eqn:Hc; [| discriminate].
  destruct (Z.ltb_spec d 16) as [Hd |]; [| discriminate].
  destruct (digit_value_facts c d Hc Hd) as (Hsp & Hplus & Hminus & _).
  assert (Hl : Py.lstrip (String c r) = String c r) by (simpl; now rewrite Hsp).
  rewrite Hl, Hr. unfold Py.split_sign. rewrite Hminus, Hplus.
  assert (Hx : Py.strip_radix 16 (String c r) = String c r).
  { unfold Py.strip_radix. destruct r as [| c' r']; [reflexivity |].
    simpl in H. destruct (Py.digit_value c') as [d' |] eqn:Hc'; [| discriminate].
    destruct (Z.ltb_spec d' 16) as [Hd' |]; [| discriminate].
    destruct (digit_value_facts c' d' Hc' Hd') as (_ & _ & _ & Hrad).
    rewrite Hrad. now rewrite andb_false_r. }
  rewrite Hx. simpl. rewrite Hc.
  destruct (Z.ltb_spec d 16); [| lia]. rewrite H. simpl. f_equal. lia.
Qed.

(** The digits [hex] prints for a positive number read back as that number,
    four bits of the number for each digit. *)
Lemma parse_of_pos (p : positive) :
  exists k : nat, forall rest acc,
    Py.parse_digits 16 (HexString.Raw.of_pos p rest) acc
    = Py.parse_digits 16 rest (acc * 16 ^ Z.of_nat k + Z.pos p).
Proof.
  revert p; fix parse_of_pos 1; intros p.
  do 4 try destruct p as [p | p |];
    try (exists 1%nat; intros rest acc;
         cbn [HexString.Raw.of_pos Py.parse_digits];
         eval_digit; f_equal; lia);
    destruct (parse_of_pos p) as [k Hk]; exists (S k); intros rest acc;
    cbn [HexString.Raw.of_pos]; rewrite Hk; cbn [Py.parse_digits];
    rewrite Nat2Z.inj_succ, Z.pow_succ_r by lia;
    eval_digit; f_equal; lia.
Qed.

Lemma parse_zeros (n : nat) (s : string) :
  Py.parse_digits 16 (Py.zeros n +:+ s) 0 = Py.parse_digits 16 s 0.
Proof. induction n as [| n IH]; [reflexivity | exact IH]. Qed.

Lemma hex_digits_pos (p : positive) :
  Py.slice_from (Py.hex (Z.pos p)) 2 = HexString.Raw.of_pos p "".
Proof.
  change (Py.hex (Z.pos p))
    with (String "0" (String "x" (HexString.Raw.of_pos p ""))).
  apply (slice_from_drop 2). simpl. lia.
Qed.

(** An address column reads back, in base 16, as the counter it was made
    from. *)
Lemma address_of_int (loc : Z) :
  0 <= loc -> Py.int_of 16 (address_of loc) = Some loc.
Proof.
  intros Hloc. destruct loc as [| p | p]; [reflexivity | | lia].
  unfold address_of. rewrite hex_digits_pos.
  destruct (parse_of_pos p) as [k Hk].
  specialize (Hk "" 0). cbn [Py.parse_digits] in Hk.
  rewrite Z.mul_0_l, Z.add_0_l in Hk.
  set (ds := HexString.Raw.of_pos p "") in *.
  destruct ds as [| c r] eqn:Hds; [discriminate |].
  apply int_of_digits.
  - unfold Py.zfill. destruct (5 <=? Py.len (String c r)); [discriminate |].
    destruct (_ || _)%bool; [discriminate |].
    destruct (Z.to_nat _); discriminate.
  - unfold Py.zfill. destruct (5 <=? Py.len (String c r)); [exact Hk |].
    pose proof Hk as Hk'. simpl in Hk'.
    destruct (Py.digit_value c) as [d |] eqn:Hc; [| discriminate].
    destruct (Z.ltb_spec d 16) as [Hd |]; [| discriminate].
    destruct (digit_value_facts c d Hc Hd) as (_ & -> & -> & _).
    simpl orb. cbv iota. now rewrite parse_zeros.
Qed.

(** ** Location-Counter Pass *)

Lemma FORM2_not_directive (op : string) :
  Py.contains FORM2 op = true ->
  String.eqb op "BASE" = false /\ String.eqb op "START" = false.
Proof.
  intros H. apply contains_In in H as [v H]. each_entry H; split; reflexivity.
Qed.

Lemma bare_numeric_first (s : string) :
  bare_numeric s = true ->
  exists c, Py.getitem s 0 = Some c
            /\ Ascii.eqb c "C" = false /\ Ascii.eqb c "X" = false.
Proof.
  unfold bare_numeric. destruct s as [| c r]; [discriminate |].
  simpl. intros H. apply andb_prop in H as [H _].
  exists c. split; [reflexivity |].
  destruct c as [[] [] [] [] [] [] [] []]; vm_compute in H; try discriminate H;
    split; reflexivity.
Qed.

(** C4.  For a record that is not a BASE line, a full-line comment or a START
    line, [FindOffset] puts the current location counter in the address
    column (the column reads back as the counter) and advances the counter by
    the length the specification gives the operation: 2 for a format-2
    mnemonic, 1 for a format-1 mnemonic, 4 for an extended operation, 3n for
    RESW n, n for RESB n, 3 for WORD, the length of the text for BYTE C'...',
    half the number of digits for BYTE X'...', 1 for a bare-numeric BYTE and 3
    for any other mnemonic.  The symbol table, the console and the file are
    left as they were. *)
Theorem FindOffset_length (label op operand : string) (c : ascii) (n : Z)
    (w : world) :
  Py.getitem label 0 = Some c -> c <> "."%char ->
  op <> "BASE" -> op <> "START" ->
  0 <= LOCCTR w ->
  op_length op operand n ->
  FindOffset [label; op; operand] w
    = (Ret [address_of (LOCCTR w); label; op; operand],
       World (LOCCTR w + n) (SYMTAB w) (stdout w) (target w))
  /\ Py.int_of 16 (address_of (LOCCTR w)) = Some (LOCCTR w).
Proof.
  intros Hlabel Hc Hbase Hstart Hloc Hlen.
  split; [| now apply address_of_int].
  apply eqb_false in Hbase, Hstart. apply ascii_eqb_false in Hc.
  unfold FindOffset, item, char_at. simpl lookup.
  run. rewrite Hbase, Hlabel. run. rewrite Hc. run. rewrite Hstart.
  destruct Hlen as [op operand H2 | op operand H1 | op operand
                   | operand n Hn | operand n Hn | operand
                   | text | digits | operand Hnum
                   | op operand c' H2 H1 Hop Hplus HW HB HWD HBY].
  - rewrite H2. reflexivity.
  - rewrite (FORM1_not_FORM2 _ H1), H1. reflexivity.
  - reflexivity.
  - change (Py.getitem "RESW" 0) with (Some "R"%char). run.
    rewrite Hn. run. do 2 f_equal. f_equal. lia.
  - change (Py.getitem "RESB" 0) with (Some "R"%char). run.
    rewrite Hn. reflexivity.
  - reflexivity.
  - change ("C'" +:+ text +:+ "'")
      with (String "C" (String "'" (text +:+ "'"))).
    change (Py.getitem "BYTE" 0) with (Some "B"%char). run.
    change (Py.getitem (String "C" ?s) 0) with (Some "C"%char). run.
    do 3 f_equal. unfold Py.len. simpl String.length.
    rewrite string_length_app. simpl String.length. lia.
  - change ("X'" +:+ digits +:+ "'")
      with (String "X" (String "'" (digits +:+ "'"))).
    change (Py.getitem "BYTE" 0) with (Some "B"%char). run.
    change (Py.getitem (String "X" ?s) 0) with (Some "X"%char). run.
    do 4 f_equal. unfold Py.len. simpl String.length.
    rewrite string_length_app. simpl String.length. lia.
  - destruct (bare_numeric_first _ Hnum) as (c3 & H3 & HC & HX).
    change (Py.getitem "BYTE" 0) with (Some "B"%char). run.
    rewrite H3. run. rewrite HC, HX. reflexivity.
  - apply eqb_false in HW, HB, HWD, HBY. apply ascii_eqb_false in Hplus.
    rewrite H2, H1, Hop. run. rewrite Hplus, HW, HB, HWD, HBY. reflexivity.
Qed.

(** [BUFFER RESW 10] at counter 0x1000: address 01000, counter 0x101e. *)
Lemma FindOffset_length_witness :
  FindOffset ["BUFFER"; "RESW"; "10"] (World 4096 ∅ [] "")
    = (Ret [address_of 4096; "BUFFER"; "RESW"; "10"],
       World (4096 + 3 * 10) ∅ [] "")
  /\ Py.int_of 16 (address_of 4096) = Some 4096.
Proof.
  apply (FindOffset_length "BUFFER" "RESW" "10" "B" (3 * 10)
           (World 4096 ∅ [] "")).
  - reflexivity.
  - discriminate.
  - discriminate.
  - discriminate.
  - simpl. lia.
  - apply len_RESW. reflexivity.
Defined.

Example FindOffset_BYTE_C :
  fst (FindOffset ["EOF"; "BYTE"; "C'EOF'"] world0)
  = Ret ["00000"; "EOF"; "BYTE"; "C'EOF'"]
  /\ LOCCTR (snd (FindOffset ["EOF"; "BYTE"; "C'EOF'"] world0)) = 3.
Proof. split; reflexivity. Qed.

Example FindOffset_BYTE_X :
  LOCCTR (snd (FindOffset ["INPUT"; "BYTE"; "X'F1'"] world0)) = 1.
Proof. reflexivity. Qed.

(** ** Line Splitter on a blank line *)

Lemma words_blank (s : string) :
  blank s = true -> String.words_go None s = [].
Proof.
  unfold blank. induction s as [| c r IH]; simpl; [reflexivity |].
  intros H. apply andb_prop in H as [-> Hr]. simpl. now apply IH.
Qed.

Lemma untab_space (c : ascii) :
  Ascii.is_space c = true -> Ascii.is_space (untab c) = true.
Proof.
  destruct c as [[] [] [] [] [] [] [] []]; vm_compute; congruence.
Qed.

Lemma blank_untab (s : string) :
  blank s = true -> blank (map_chars untab s) = true.
Proof.
  unfold blank. induction s as [| c r IH]; simpl; [reflexivity |].
  intros H. apply andb_prop in H as [Hc Hr].
  now rewrite (untab_space _ Hc), IH.
Qed.

(** A blank line splits into three empty fields, or into the no-label mark
    and two empty fields; the empty string cannot be split at all. *)
Lemma FindColumn_blank (line : string) (w : world) :
  blank line = true ->
  FindColumn line w = (Raise Py.IndexError, w) \/
  FindColumn line w = (Ret [""; ""; ""], w) \/
  FindColumn line w = (Ret ["    "; ""; ""], w).
Proof.
  intros H. pose proof (blank_untab _ H) as Hu.
  unfold FindColumn, Py.split, String.words.
  rewrite (words_blank _ Hu).
  destruct line as [| c r]; [now left | right].
  simpl map_chars. unfold char_at.
  change (Py.getitem (String (untab c) ?s) 0) with (Some (untab c)). run.
  destruct (Ascii.eqb (untab c) " "); [right | left]; reflexivity.
Qed.

Lemma FindOffset_no_label (w : world) :
  FindOffset [""; ""; ""] w = (Raise Py.IndexError, w).
Proof. reflexivity. Qed.

Lemma FindOffset_no_operation (w : world) :
  FindOffset ["    "; ""; ""] w = (Raise Py.IndexError, w).
Proof. reflexivity. Qed.

Lemma FirstPass_line_blank (line : string) (w : world) :
  blank line = true -> FirstPass_line line w = (Raise Py.IndexError, w).
Proof.
  intros H. unfold FirstPass_line. unfold bind at 1.
  destruct (FindColumn_blank line w H) as [-> | [-> | ->]].
  - reflexivity.
  - unfold bind at 1. now rewrite FindOffset_no_label.
  - unfold bind at 1. now rewrite FindOffset_no_operation.
Qed.

(** An exception on a line ends the pass there, with the state the earlier
    lines left. *)
Lemma FirstPass_app_raise (pre : list string) : forall line post w rows w1 e,
  FirstPass pre w = (Ret rows, w1) ->
  FirstPass_line line w1 = (Raise e, w1) ->
  FirstPass (pre ++ line :: post) w = (Raise e, w1).
Proof.
  induction pre as [| l pre IH]; intros line post w rows w1 e Hpre Hline.
  - injection Hpre as _ <-. simpl. unfold bind at 1. now rewrite Hline.
  - simpl in *. unfold bind at 1 in Hpre. unfold bind at 1.
    destruct (FirstPass_line l w) as [[cols | e'] w2]; [| discriminate].
    unfold bind at 1 in Hpre. unfold bind at 1.
    destruct (FirstPass pre w2) as [[rows' | e'] w3] eqn:Hrest; [| discriminate].
    injection Hpre as _ <-.
    now rewrite (IH line post w2 rows' w3 e Hrest Hline).
Qed.

(** C10.  When the lines before it are processed, an empty or whitespace-only
    line makes the pipeline raise IndexError: nothing is skipped and nothing
    reported.  [FindColumn] indexes the first character of an empty line, and
    [FindOffset] the first character of the empty label field. *)
Theorem blank_line_IndexError (pre post : list string) (line : string)
    (w w1 : world) (rows : list (list string)) :
  blank line = true ->
  FirstPass pre w = (Ret rows, w1) ->
  main (pre ++ line :: post) w = (Raise Py.IndexError, w1)
  /\ FindColumn "" w1 = (Raise Py.IndexError, w1)
  /\ FindOffset [""; ""; ""] w1 = (Raise Py.IndexError, w1).
Proof.
  intros Hblank Hpre. split; [| split; reflexivity].
  unfold main. unfold bind at 1.
  rewrite (FirstPass_app_raise pre line post w rows w1 Py.IndexError Hpre
             (FirstPass_line_blank line w1 Hblank)).
  reflexivity.
Qed.

(** A START line, a line of one space, an END line. *)
Lemma blank_line_IndexError_witness :
  main (file_lines ["P START 0"] ++ String " " (String "010" "")
          :: file_lines ["  END"]) world0
  = (Raise Py.IndexError, World 0 (<["P" := "00000"]> ∅) [] "").
Proof.
  apply (blank_line_IndexError (file_lines ["P START 0"])
           (file_lines ["  END"]) (String " " (String "010" "")) world0 _
           [["00000"; "P"; "START"; "0"]]).
  - reflexivity.
  - vm_compute. reflexivity.
Defined.

(** ** Displacement Resolver: two's complement *)

(** [TwoComp] neither reads nor writes the state. *)
Lemma TwoComp_pure (d : Z) (w : world) :
  TwoComp d w = (fst (TwoComp d world0), w).
Proof.
  unfold TwoComp. run. destruct (Py.int_of 2 _); reflexivity.
Qed.

(** The 2048 negative displacements of 12 bits, one by one. *)
Lemma TwoComp_agrees_all :
  forallb (fun k => TwoComp_agrees (- Z.of_nat k - 1)) (seq 0 2048) = true.
Proof. vm_compute. reflexivity. Qed.

(** C7.  For a negative displacement [d] with [|d| <= 2048], [TwoComp] returns
    the 3 hexadecimal digits obtained by inverting the 12 bits of [|d|] and
    adding 1, and reading that field as a signed 12-bit number gives [d]
    back. *)
Theorem TwoComp_negative (d : Z) (w : world) :
  -2048 <= d < 0 ->
  exists h : string,
    TwoComp d w = (Ret h, w)
    /\ h = invert12_plus1 d
    /\ String.length h = 3%nat
    /\ decode12 <$> Py.int_of 16 h = Some d.
Proof.
  intros Hd.
  pose proof TwoComp_agrees_all as Hall.
  rewrite forallb_forall in Hall.
  specialize (Hall (Z.to_nat (- d - 1))).
  replace (- Z.of_nat (Z.to_nat (- d - 1)) - 1) with d in Hall by lia.
  assert (Hin : In (Z.to_nat (- d - 1)) (seq 0 2048)) by (apply in_seq; lia).
  specialize (Hall Hin). unfold TwoComp_agrees in Hall.
  rewrite (TwoComp_pure d w).
  destruct (TwoComp d world0) as [[h | e] w0]; [| discriminate].
  apply andb_prop in Hall as [Hall Hdec]. apply andb_prop in Hall as [Heq Hlen].
  exists h. repeat split.
  - now apply String.eqb_eq.
  - now apply Nat.eqb_eq.
  - destruct (Py.int_of 16 h) as [field |]; [| discriminate].
    simpl. f_equal. now apply Z.eqb_eq.
Qed.

(** The boundary: -2048 is the field 800. *)
Lemma TwoComp_negative_witness :
  exists h : string,
    TwoComp (-2048) world0 = (Ret h, world0)
    /\ h = invert12_plus1 (-2048)
    /\ String.length h = 3%nat
    /\ decode12 <$> Py.int_of 16 h = Some (-2048).
Proof. apply (TwoComp_negative (-2048) world0). lia. Defined.

Example TwoComp_minus_2048 : fst (TwoComp (-2048) world0) = Ret "800".
Proof. reflexivity. Qed.

Example TwoComp_minus_1 : fst (TwoComp (-1) world0) = Ret "fff".
Proof. reflexivity. Qed.

(** Outside the claim's range: a zero displacement comes back on 4 digits. *)
Example TwoComp_zero : fst (TwoComp 0 world0) = Ret "1000".
Proof. reflexivity. Qed.

(** ** Encoding Pass: the globals are only read *)

Section Frame.

Context {A B : Type}.

Lemma frame_ret (a : A) : frame (ret a).
Proof. intros w; split; reflexivity. Qed.

Lemma frame_raise (e : Py.exn) : frame (@raise A e).
Proof. intros w; split; reflexivity. Qed.

Lemma frame_bind (m : M A) (k : A -> M B) :
  frame m -> (forall a, frame (k a)) -> frame (bind m k).
Proof.
  intros Hm Hk w. unfold bind.
  destruct (Hm w) as [HL HS].
  destruct (m w) as [[a | e] w1]; simpl in *.
  - destruct (Hk a w1) as [HL' HS']. split; congruence.
  - split; assumption.
Qed.

Lemma frame_or_raise (e : Py.exn) (o : option A) : frame (or_raise e o).
Proof. destruct o; [apply frame_ret | apply frame_raise]. Qed.

End Frame.

Lemma frame_get_SYMTAB : frame get_SYMTAB.
Proof. intros w; split; reflexivity. Qed.

Lemma frame_print (s : string) : frame (print s).
Proof. intros w; split; reflexivity. Qed.

Lemma frame_write (s : string) : frame (write s).
Proof. intros w; split; reflexivity. Qed.

Lemma frame_int_ (base : Z) (x : option string) : frame (int_ base x).
Proof. destruct x; [apply frame_or_raise | apply frame_raise]. Qed.

Lemma frame_concat_opt (s : string) (x : option string) :
  frame (concat_opt s x).
Proof. destruct x; [apply frame_ret | apply frame_raise]. Qed.

Create HintDb frame.
#[local] Hint Resolve frame_ret frame_raise frame_or_raise frame_get_SYMTAB
  frame_print frame_write frame_int_ frame_concat_opt : frame.

(** One step through a statement: a known frame, a sequence, or a branch. *)
Ltac frame_step :=
  first
    [ progress cbv zeta
    | solve [ auto with frame nocore ]
    | apply frame_bind; [ | intros ? ]
    | match goal with
      | |- frame (if ?b then _ else _) => destruct b
      | |- frame (match ?x with _ => _ end) => destruct x
      end ].
Ltac frame_tac := repeat frame_step.

Lemma frame_NIbits (operand : string) : frame (NIbits operand).
Proof. unfold NIbits, char_at. frame_tac. Qed.
#[local] Hint Resolve frame_NIbits : frame.

Lemma frame_FindOpcode (opcode : option string) (operand : string) :
  frame (FindOpcode opcode operand).
Proof. unfold FindOpcode. frame_tac. Qed.
#[local] Hint Resolve frame_FindOpcode : frame.

Lemma frame_out_of_PC_range (c : string) (l : option string) :
  frame (out_of_PC_range c l).
Proof. unfold out_of_PC_range. frame_tac. Qed.
#[local] Hint Resolve frame_out_of_PC_range : frame.

Lemma frame_XBPE (opcode operand curraddr : string) :
  frame (XBPE opcode operand curraddr).
Proof. unfold XBPE, char_at. frame_tac. Qed.
#[local] Hint Resolve frame_XBPE : frame.

Lemma frame_TwoComp (d : Z) : frame (TwoComp d).
Proof. unfold TwoComp. frame_tac. Qed.
#[local] Hint Resolve frame_TwoComp : frame.

Lemma frame_Format4 (opcode operand curraddr : string) :
  frame (Format4 opcode operand curraddr).
Proof. unfold Format4, char_at. frame_tac. Qed.
#[local] Hint Resolve frame_Format4 : frame.

Lemma frame_Format3 (opcode operand curraddr : string)
    (baseaddr : option string) :
  frame (Format3 opcode operand curraddr baseaddr).
Proof. unfold Format3, char_at. frame_tac. Qed.
#[local] Hint Resolve frame_Format3 : frame.

Lemma frame_Format2 (opcode operand : string) : frame (Format2 opcode operand).
Proof. unfold Format2, item. frame_tac. Qed.
#[local] Hint Resolve frame_Format2 : frame.

Lemma frame_to_bytes (chunks : list string) : frame (to_bytes chunks).
Proof. induction chunks as [| ch rest IH]; simpl; frame_tac. Qed.
#[local] Hint Resolve frame_to_bytes : frame.

Lemma frame_SecondPass_elem (basevar : option string) (elem : list string) :
  frame (SecondPass_elem basevar elem).
Proof. unfold SecondPass_elem, FindForm, item, char_at. frame_tac. Qed.
#[local] Hint Resolve frame_SecondPass_elem : frame.

Lemma frame_SecondPass_loop (infolist : list (list string)) :
  forall basevar, frame (SecondPass_loop basevar infolist).
Proof.
  induction infolist as [| elem rest IH]; intros basevar; simpl; frame_tac.
Qed.

(** C9.  For every input and every state, the location counter and the
    symbol table after [SecondPass] are the ones before it, whether the pass
    returns or raises. *)
Theorem SecondPass_preserves_globals (infolist : list (list string))
    (w : world) :
  LOCCTR (snd (SecondPass infolist w)) = LOCCTR w
  /\ SYMTAB (snd (SecondPass infolist w)) = SYMTAB w.
Proof. apply frame_SecondPass_loop. Qed.

(** Pass 1, for contrast, writes both. *)
Example FirstPass_writes_globals :
  LOCCTR (snd (FirstPass prog_scenario world0)) = 0x1006
  /\ SYMTAB (snd (FirstPass prog_scenario world0)) !! "ALPHA" = Some "01003".
Proof. split; vm_compute; reflexivity. Qed.

(** ** Encoding Pass: RSUB *)

Lemma FindOpcode_RSUB (operand : string) (w : world) :
  FindOpcode (Some "4C") operand w = (Ret "4f", w).
Proof. reflexivity. Qed.

(** With no operand, or with operand text that neither ends in X nor names a
    label, the flag nibble of RSUB is 0. *)
Lemma XBPE_RSUB_plain (operand curraddr : string) (w : world) :
  operand = "" \/
  (last_char operand <> Some "X"%char /\ SYMTAB w !! unmarked operand = None) ->
  XBPE "RSUB" operand curraddr w = (Ret "0", w).
Proof.
  intros [-> | [Hlast Hsym]]; [reflexivity |].
  unfold XBPE.
  destruct (String.eqb_spec operand "") as [-> | Hne]; [reflexivity |].
  destruct (last_char_Some operand Hne) as [l Hl].
  unfold last_char in Hl. run. rewrite Hl. run.
  assert (Hx : Ascii.eqb l "X" = false).
  { apply Ascii.eqb_neq. intros ->. now apply Hlast. }
  rewrite Hx. run.
  change (Py.getitem "RSUB" 0) with (Some "R"%char). run'.
  unfold unmarked in Hsym.
  destruct operand as [| c r]; [contradiction |].
  change (Py.getitem (String c r) 0) with (Some c) in *. run.
  rewrite Hsym. reflexivity.
Qed.

(** The opcode byte and the displacement of RSUB do not depend on the
    operand; the flag nibble is the one [XBPE] computes. *)
Lemma Format3_RSUB (operand curraddr nib : string) (baseaddr : option string)
    (w : world) :
  XBPE "RSUB" operand curraddr w = (Ret nib, w) ->
  Format3 "RSUB" operand curraddr baseaddr w
  = (Ret ("4f" +:+ nib +:+ "000"), w).
Proof.
  intros H. unfold Format3. tests.
  change (str_opt (Py.get OPTAB "RSUB")) with "4C".
  unfold bind at 1. rewrite FindOpcode_RSUB.
  unfold bind at 1. rewrite H. reflexivity.
Qed.

Lemma ends_in_X_last (operand : string) (l : ascii) :
  last_char operand = Some l -> ends_in_X operand = Ascii.eqb l "X".
Proof. unfold ends_in_X. now intros ->. Qed.

(** The flag nibble of RSUB is computed whenever the operand is empty or
    keeps some text once the index mark is dropped, and the addresses that
    the range test reads are hexadecimal; it is one of six digits. *)
Lemma XBPE_RSUB_returns (operand curraddr : string) (w : world) :
  operand = "" \/ unindexed operand <> "" ->
  (forall la, operand <> "" ->
     SYMTAB w !! unmarked (unindexed operand) = Some la ->
     exists ca lv, Py.int_of 16 curraddr = Some ca
                   /\ Py.int_of 16 la = Some lv) ->
  exists nib, XBPE "RSUB" operand curraddr w = (Ret nib, w)
              /\ In nib ["0"; "2"; "4"; "8"; "a"; "c"].
Proof.
  intros Hop Hparse.
  destruct (String.eqb_spec operand "") as [-> | Hne].
  { exists "0". split; [reflexivity | now left]. }
  destruct Hop as [-> | Hun]; [contradiction |].
  specialize (fun la => Hparse la Hne).
  destruct (last_char_Some operand Hne) as [l Hl].
  unfold unindexed in Hun, Hparse.
  rewrite (ends_in_X_last _ _ Hl) in Hun, Hparse.
  unfold XBPE. rewrite (eqb_false _ _ Hne).
  unfold last_char in Hl. run. rewrite Hl. run.
  change (Py.getitem "RSUB" 0) with (Some "R"%char). cbv beta iota.
  change (Ascii.eqb "R" "+") with false. cbv beta iota.
  clear Hl Hne. revert Hun Hparse.
  destruct (Ascii.eqb l "X"); cbv beta iota zeta;
    [ generalize (Py.slice_to operand (Py.len operand - 2))
    | generalize operand ];
    clear operand; intros s Hun Hparse;
    (destruct s as [| c0 r]; [contradiction |]);
    change (Py.getitem (String c0 r) 0) with (Some c0); cbv beta iota;
    unfold unmarked in Hparse;
    change (Py.getitem (String c0 r) 0) with (Some c0) in Hparse;
    cbv beta iota in Hparse;
    (destruct (Ascii.eqb c0 "#" || Ascii.eqb c0 "@")%bool;
     (destruct (SYMTAB w !! _) as [la |] eqn:E;
      [ destruct (Hparse la eq_refl) as (ca & lv & Hca & Hlv);
        unfold out_of_PC_range; run; rewrite Hca; run; rewrite Hlv; run;
        destruct ((ca + 3 - lv >? 2047) || (ca + 3 - lv <? -2048))%bool;
        eexists; (split; [reflexivity | simpl; tauto])
      | eexists; (split; [reflexivity | simpl; tauto]) ])).
Qed.

(** An operand that is X alone, or one character and X: nothing is left of
    it once the index mark is dropped, and the record raises IndexError. *)
Lemma RSUB_lone_X_IndexError (addr label operand : string) (c : ascii)
    (basevar : option string) (w : world) :
  Py.getitem label 0 = Some c -> c <> "."%char ->
  operand <> "" -> unindexed operand = "" ->
  SecondPass_elem basevar [addr; label; "RSUB"; operand] w
  = (Raise Py.IndexError, w).
Proof.
  intros Hlabel Hc Hne Hun. apply ascii_eqb_false in Hc.
  destruct (last_char_Some operand Hne) as [l Hl].
  unfold unindexed in Hun. rewrite (ends_in_X_last _ _ Hl) in Hun.
  assert (HX : XBPE "RSUB" operand addr w = (Raise Py.IndexError, w)).
  { unfold XBPE. rewrite (eqb_false _ _ Hne).
    unfold last_char in Hl. run. rewrite Hl. run.
    destruct (Ascii.eqb l "X"); [| contradiction].
    rewrite Hun. reflexivity. }
  unfold SecondPass_elem, FindForm. run'.
  rewrite Hlabel. run'. rewrite Hc. run'.
  unfold Format3. tests.
  change (str_opt (Py.get OPTAB "RSUB")) with "4C".
  unfold bind at 1. rewrite FindOpcode_RSUB.
  unfold bind at 1. rewrite HX. reflexivity.
Qed.

(** C3, as the code has it.  Take a record whose operation is RSUB (format
    3), on a line that is no comment, whose operand is empty or keeps some
    text once a final X and the character before it are dropped, and for
    which the addresses the range test reads (the record's own, and that of
    the label the operand names, if any) are hexadecimal.  It is encoded as
    4f, one flag digit and 000, and adds exactly three bytes to the file:
    4F (opcode 4C with n = i = 1, whatever the operand), the flag nibble in
    the high half of the second byte, and a zero displacement.  With no
    operand, or with operand text that neither ends in X nor names a Symbol
    Table label (after a leading # or @), the flag nibble is 0: the record is
    4f0000 and the bytes are 4F 00 00. *)
Theorem RSUB_encodes_4F0000 (addr label operand : string) (c : ascii)
    (basevar : option string) (w : world) :
  Py.getitem label 0 = Some c -> c <> "."%char ->
  operand = "" \/ unindexed operand <> "" ->
  (forall la, operand <> "" ->
     SYMTAB w !! unmarked (unindexed operand) = Some la ->
     exists ca lv, Py.int_of 16 addr = Some ca /\ Py.int_of 16 la = Some lv) ->
  exists (nib out : string) (n : Z),
    XBPE "RSUB" operand addr w = (Ret nib, w)
    /\ String.length nib = 1%nat
    /\ Py.int_of 16 nib = Some n
    /\ SecondPass_elem basevar [addr; label; "RSUB"; operand] w
       = (Ret (basevar,
               [addr; label; "RSUB"; operand; "4f" +:+ nib +:+ "000"]),
          World (LOCCTR w) (SYMTAB w) (stdout w) (target w +:+ out))
    /\ ords out = [0x4F; 16 * n; 0x00]
    /\ (operand = "" \/
        (last_char operand <> Some "X"%char
         /\ SYMTAB w !! unmarked operand = None) ->
        nib = "0" /\ "4f" +:+ nib +:+ "000" = "4f0000"
        /\ ords out = [0x4F; 0x00; 0x00]).
Proof.
  intros Hlabel Hc Hop Hparse. apply ascii_eqb_false in Hc.
  destruct (XBPE_RSUB_returns operand addr w Hop Hparse) as (nib & HX & Hin).
  pose proof (Format3_RSUB operand addr nib basevar w HX) as HF.
  assert (HS : forall out n,
             to_bytes (chunks2 ("4f" +:+ nib +:+ "000")) w = (Ret out, w) ->
             String.length nib = 1%nat -> Py.int_of 16 nib = Some n ->
             ords out = [0x4F; 16 * n; 0x00] ->
             (nib = "0" -> ords out = [0x4F; 0x00; 0x00]) ->
             exists (nib' out : string) (n : Z),
               XBPE "RSUB" operand addr w = (Ret nib', w)
               /\ String.length nib' = 1%nat
               /\ Py.int_of 16 nib' = Some n
               /\ SecondPass_elem basevar [addr; label; "RSUB"; operand] w
                  = (Ret (basevar,
                          [addr; label; "RSUB"; operand;
                           "4f" +:+ nib' +:+ "000"]),
                     World (LOCCTR w) (SYMTAB w) (stdout w)
                           (target w +:+ out))
               /\ ords out = [0x4F; 16 * n; 0x00]
               /\ (operand = "" \/
                   (last_char operand <> Some "X"%char
                    /\ SYMTAB w !! unmarked operand = None) ->
                   nib' = "0" /\ "4f" +:+ nib' +:+ "000" = "4f0000"
                   /\ ords out = [0x4F; 0x00; 0x00])).
  { intros out n Hout Hlen Hint Hords Hzero. exists nib, out, n.
    repeat split; try assumption.
    - unfold SecondPass_elem, FindForm. run'.
      rewrite Hlabel. run'. rewrite Hc. run'.
      rewrite HF.
      change ("" +:+ "4f" +:+ nib +:+ "000") with ("4f" +:+ nib +:+ "000").
      rewrite Hout. reflexivity.
    - pose proof (XBPE_RSUB_plain operand addr w H) as H0.
      rewrite HX in H0. now injection H0.
    - pose proof (XBPE_RSUB_plain operand addr w H) as H0.
      rewrite HX in H0. injection H0 as ->. reflexivity.
    - pose proof (XBPE_RSUB_plain operand addr w H) as H0.
      rewrite HX in H0. injection H0 as H0. now apply Hzero. }
  simpl in Hin.
  destruct Hin as [<- | [<- | [<- | [<- | [<- | [<- | []]]]]]];
    eapply HS; try reflexivity; discriminate.
Qed.

(** [RSUB A,X] at address 0 with A at 0x802: indexed and within reach of the
    program counter, so the nibble is a and the bytes are 4F A0 00.  And
    [RSUB] followed by a comment word, which the splitter takes as the
    operand: 4f0000, the bytes 4F 00 00. *)
Lemma RSUB_encodes_4F0000_witness :
  (exists out : string,
     XBPE "RSUB" "A,X" "00000" world_AB = (Ret "a", world_AB)
     /\ SecondPass_elem (Some "0") ["00000"; "    "; "RSUB"; "A,X"] world_AB
        = (Ret (Some "0", ["00000"; "    "; "RSUB"; "A,X"; "4fa000"]),
           World (LOCCTR world_AB) (SYMTAB world_AB) (stdout world_AB)
                 (target world_AB +:+ out))
     /\ ords out = [0x4F; 0xA0; 0x00])
  /\ (exists out : string,
        SecondPass_elem (Some "0") ["01006"; "    "; "RSUB"; "return"] world0
        = (Ret (Some "0", ["01006"; "    "; "RSUB"; "return"; "4f0000"]),
           World (LOCCTR world0) (SYMTAB world0) (stdout world0)
                 (target world0 +:+ out))
        /\ ords out = [0x4F; 0x00; 0x00]).
Proof.
  split.
  - destruct (RSUB_encodes_4F0000 "00000" "    " "A,X" " " (Some "0")
                world_AB)
      as (nib & out & n & HX & _ & Hint & HE & Hords & _).
    + reflexivity.
    + discriminate.
    + right. discriminate.
    + intros la _ H. exists 0, 2050.
      assert (E : la = "00802") by (vm_compute in H; congruence).
      rewrite E. split; reflexivity.
    + assert (E : nib = "a") by (vm_compute in HX; congruence).
      rewrite E in *. exists out. split; [exact HX |].
      split; [exact HE |].
      assert (En : n = 10) by (vm_compute in Hint; congruence).
      rewrite En in Hords. exact Hords.
  - destruct (RSUB_encodes_4F0000 "01006" "    " "return" " " (Some "0")
                world0)
      as (nib & out & n & _ & _ & _ & HE & _ & Hz).
    + reflexivity.
    + discriminate.
    + right. discriminate.
    + intros la _ H. discriminate H.
    + destruct Hz as (E & _ & Hb).
      { right. split; [discriminate | reflexivity]. }
      rewrite E in HE. exists out. split; [exact HE | exact Hb].
Defined.

(** C3, as stated, fails: the bytes of RSUB are 4F 00 00, not 4C 00 00; an
    operand that names a label or ends in X changes the flag nibble; an
    operand that is X alone raises IndexError; and +RSUB with no operand
    raises IndexError instead of giving 4C000000. *)
Lemma RSUB_not_4C0000 :
  ords (target (snd (SecondPass [["00000"; "    "; "RSUB"; ""]] world0)))
  = [0x4F; 0x00; 0x00]
  /\ [0x4F; 0x00; 0x00] <> [0x4C; 0x00; 0x00]
  /\ ords (target (snd (SecondPass [["00000"; "    "; "RSUB"; "A,X"]] world_AB)))
     = [0x4F; 0xA0; 0x00]
  /\ fst (SecondPass [["00000"; "    "; "RSUB"; "X"]] world0)
     = Raise Py.IndexError
  /\ fst (SecondPass [["00000"; "    "; "+RSUB"; ""]] world0)
     = Raise Py.IndexError.
Proof. repeat split; try discriminate; vm_compute; reflexivity. Qed.

(** ** Encoding Pass: format 4 *)

Example format4_label_plain : format4_label "BUFFER" = "BUFFER".
Proof. reflexivity. Qed.

Example format4_label_indexed : format4_label "BUFFER,X" = "BUFFER".
Proof. reflexivity. Qed.

Example format4_label_immediate : format4_label "#LENGTH" = "LENGTH".
Proof. reflexivity. Qed.

(** A label whose name ends in X is read as indexed: the label looked up is
    the name without its last two characters. *)
Example format4_label_final_X : format4_label "MAX" = "M".
Proof. reflexivity. Qed.

(** The opcode byte is found for every catalog mnemonic and non-empty
    operand. *)
Lemma FindOpcode_total (m code operand : string) (w : world) :
  Py.get OPTAB m = Some code -> operand <> "" ->
  exists opc, FindOpcode (Some code) operand w = (Ret opc, w).
Proof.
  intros Hm Hne. destruct (OPTAB_codes m code Hm) as [v Hv].
  destruct operand as [| c r]; [contradiction |].
  unfold FindOpcode, NIbits. run. rewrite Hv. run.
  change (Py.getitem (String c r) 0) with (Some c).
  destruct (String.eqb _ "4C"); run; [eexists; reflexivity |].
  destruct (Ascii.eqb c "#"); [eexists; reflexivity |].
  destruct (Ascii.eqb c "@"); eexists; reflexivity.
Qed.




Example Format4_indexed :
  Format4 "+LDA" "B,X" "00000" world_AB = (Ret "03900803", world_AB).
Proof. vm_compute. reflexivity. Qed.

(** [+LDA MAX] with MAX in the table at 0x803: the code looks up M, reports
    that the operand is no label, and leaves the instruction without an
    address field. *)
Example Format4_final_X :
  Format4 "+LDA" "MAX" "00000" (World 0 (<["MAX" := "00803"]> ∅) [] "")
  = (Ret "039",
     World 0 (<["MAX" := "00803"]> ∅) ["Error: Operand not a label."] "").
Proof. vm_compute. reflexivity. Qed.


(** ** Displacement Resolver: the range test *)

(** What the code tests: with [disp = label - (current + 3)], base-relative
    is chosen unless [-2047 <= disp <= 2048]. *)
Lemma out_of_PC_range_spec (curraddr labeladdr : string) (c l : Z)
    (w : world) :
  Py.int_of 16 curraddr = Some c -> Py.int_of 16 labeladdr = Some l ->
  out_of_PC_range curraddr (Some labeladdr) w
  = (Ret (negb ((-2047 <=? l - (c + 3)) && (l - (c + 3) <=? 2048))), w).
Proof.
  intros Hc Hl. unfold out_of_PC_range. run. rewrite Hc. run. rewrite Hl. run.
  do 2 f_equal.
  destruct (Z.gtb_spec (c + 3 - l) 2047), (Z.ltb_spec (c + 3 - l) (-2048)),
    (Z.leb_spec (-2047) (l - (c + 3))), (Z.leb_spec (l - (c + 3)) 2048);
    simpl; try reflexivity; lia.
Qed.

(** C1, on the code.  Label A is at 0x802 and label B at 0x803.  From address
    0, A is at displacement 2047: PC-relative, field 7ff.  B is at
    displacement 2048: the code still chooses PC-relative (nibble 2) and
    emits the field 800, where the claim asks for base-relative.  From
    address 0x1000, B is at displacement -2048: the code chooses
    base-relative (nibble 4), where the claim asks for PC-relative 800. *)
Theorem PC_relative_boundaries :
  Format3 "LDA" "A" "00000" (Some "0") world_AB = (Ret "0327ff", world_AB)
  /\ XBPE "LDA" "B" "00000" world_AB = (Ret "2", world_AB)
  /\ Format3 "LDA" "B" "00000" (Some "0") world_AB = (Ret "032800", world_AB)
  /\ XBPE "LDA" "B" "01000" world_AB = (Ret "4", world_AB)
  /\ Format3 "LDA" "B" "01000" (Some "0") world_AB
     = (Ret "0342051", world_AB).
Proof. repeat split; vm_compute; reflexivity. Qed.

(** ** Encoding Pass: an operand that names no label *)

(** C2, on the code.  With an undefined label in simple addressing, format 3
    raises TypeError: the pass is aborted, nothing is reported and nothing
    written, the later WORD record included.  In indirect addressing it
    raises ValueError.  Format 4 does report and go on, but the record still
    contributes its opcode byte and flag nibble (03 01) to the file. *)
Theorem undefined_label_behaviour :
  fst (main prog_undefined3 world0) = Raise Py.TypeError
  /\ target (snd (main prog_undefined3 world0)) = ""
  /\ stdout (snd (main prog_undefined3 world0)) = []
  /\ fst (main prog_undefined3_indirect world0) = Raise Py.ValueError
  /\ stdout (snd (main prog_undefined4 world0))
     = ["Error: Incorrect format 4 instruction"]
  /\ ords (target (snd (main prog_undefined4 world0)))
     = [0x03; 0x01; 0x00; 0x00; 0x05].
Proof. repeat split; vm_compute; reflexivity. Qed.

(** ** Lengths reserved and lengths emitted *)

(** C5, on the code.  In the scenario of the specification, Pass 1 reserves
    3 + 3 = 6 bytes, and the file gets 7: the displacement of FIRST is 0, the
    code sends it to [TwoComp], and the record comes out on 4 bytes.  In the
    second program Pass 1 counts 3 bytes for END, which emits nothing. *)
Theorem length_invariant_fails :
  (let w := snd (main prog_scenario world0) in
   LOCCTR w - 0x1000 = 6 /\ Py.len (target w) = 7
   /\ ords (target w) = [0x03; 0x21; 0x00; 0x00; 0x00; 0x00; 0x05])
  /\ (let w := snd (main prog_end world0) in
      LOCCTR w - 0 = 6 /\ Py.len (target w) = 3).
Proof. repeat split; vm_compute; reflexivity. Qed.

(** ** Base-relative displacement *)

(** C6, on the code.  Label A is at 0x1000 and the base register at 0xff6,
    so the base-relative displacement is 10.  The code prints it in decimal,
    010, which the file then holds as the hexadecimal field 0x010 = 16; in
    hexadecimal on 3 digits it is 00a. *)
Theorem base_relative_field_is_decimal :
  Format3 "LDA" "A" "00000" (Some "00ff6") world_base
  = (Ret "034010", world_base)
  /\ Py.int_of 16 "01000" = Some 4096 /\ Py.int_of 16 "00ff6" = Some 4086
  /\ Py.zfill 3 (Py.slice_from (Py.hex (4096 - 4086)) 2) = "00a".
Proof. repeat split; vm_compute; reflexivity. Qed.

(** * Further properties of the code *)

(** ** Line Splitter: the fields of a line *)

Lemma string_app_nil_r (s : string) : s +:+ "" = s.
Proof.
  induction s as [| c s IH]; [reflexivity |].
  change (String c s +:+ "") with (String c (s +:+ "")). now rewrite IH.
Qed.

Lemma string_app_assoc (s t u : string) : (s +:+ t) +:+ u = s +:+ (t +:+ u).
Proof.
  induction s as [| c s IH]; [reflexivity |].
  change (String c (s +:+ t) +:+ u = String c (s +:+ (t +:+ u))).
  change (String c ((s +:+ t) +:+ u) = String c (s +:+ (t +:+ u))).
  now rewrite IH.
Qed.

Lemma rev_app_app (s1 : string) : forall s2,
  String.rev_app s1 s2 = String.rev_app s1 "" +:+ s2.
Proof.
  induction s1 as [| a s1 IH]; intros s2; [reflexivity |].
  simpl. rewrite (IH (String a s2)), (IH (String a "")).
  now rewrite string_app_assoc.
Qed.

(** Replacing tabs by spaces changes no word. *)
Lemma words_untab (s : string) : forall cur,
  String.words_go cur (map_chars untab s) = String.words_go cur s.
Proof.
  induction s as [| a s IH]; intros cur; [reflexivity |].
  cbn [map_chars String.words_go].
  destruct (Ascii.eqb_spec a "009") as [-> | Hn].
  - change (untab "009") with " "%char.
    change (Ascii.is_space " ") with true.
    change (Ascii.is_space "009") with true. cbv iota. now rewrite IH.
  - assert (E : untab a = a)
      by (unfold untab; now rewrite (ascii_eqb_false _ _ Hn)).
    rewrite E. destruct (Ascii.is_space a); now rewrite IH.
Qed.

(** White space before the first word is skipped. *)
Lemma words_blank_app (g t : string) :
  blank g = true -> String.words_go None (g +:+ t) = String.words_go None t.
Proof.
  unfold blank. induction g as [| c g IH]; [reflexivity |].
  change (String c g +:+ t) with (String c (g +:+ t)). simpl.
  intros H. apply andb_prop in H as [-> Hg]. simpl. now apply IH.
Qed.

(** The characters of a word are taken one by one. *)
Lemma words_word_app (wd : string) : forall cur t,
  all_chars (fun c => negb (Ascii.is_space c)) wd = true ->
  String.words_go (Some cur) (wd +:+ t)
  = String.words_go (Some (String.rev_app wd cur)) t.
Proof.
  induction wd as [| a wd IH]; intros cur t H; [reflexivity |].
  change (String a wd +:+ t) with (String a (wd +:+ t)).
  simpl in H. apply andb_prop in H as [Ha Hwd].
  apply negb_true_iff in Ha. cbn [String.words_go]. rewrite Ha.
  cbn [from_option String.rev_app]. now apply IH.
Qed.

Lemma rev_rev_app (wd : string) : forall cur,
  String.rev (String.rev_app wd cur) = String.rev cur +:+ wd.
Proof.
  unfold String.rev.
  induction wd as [| a wd IH]; intros cur.
  - simpl. now rewrite string_app_nil_r.
  - cbn [String.rev_app]. rewrite IH. cbn [String.rev_app].
    rewrite (rev_app_app cur (String a "")). now rewrite string_app_assoc.
Qed.

(** Splitting the text of a line gives its fields back. *)
Lemma words_join_fields (fs : list (string * string)) :
  fields_ok fs = true -> String.words_go None (join_fields fs) = map fst fs.
Proof.
  induction fs as [| [wd gap] rest IH]; [reflexivity |].
  cbn [fields_ok join_fields map fst]. intros H.
  apply andb_prop in H as [H Hrest]. apply andb_prop in H as [H Hgap].
  apply andb_prop in H as [Hwd Hblank]. unfold is_word in Hwd.
  apply andb_prop in Hwd as [Hne Hns].
  destruct wd as [| a wd]; [discriminate Hne |].
  simpl in Hns. apply andb_prop in Hns as [Ha Hns].
  apply negb_true_iff in Ha.
  change (String a wd +:+ gap +:+ join_fields rest)
    with (String a (wd +:+ gap +:+ join_fields rest)).
  cbn [String.words_go]. rewrite Ha. cbn [from_option].
  rewrite (words_word_app wd _ _ Hns).
  assert (Hrev : String.rev (String.rev_app wd (String a "")) = String a wd)
    by now rewrite rev_rev_app.
  destruct gap as [| g gap].
  - destruct rest as [| f rest]; [| discriminate Hgap].
    cbn [join_fields map]. change ("" +:+ "") with "".
    cbn [String.words_go fmap option_fmap option_map option_list].
    now rewrite Hrev.
  - unfold blank in Hblank. simpl in Hblank.
    apply andb_prop in Hblank as [Hg Hblank].
    change (String g gap +:+ join_fields rest)
      with (String g (gap +:+ join_fields rest)).
    cbn [String.words_go]. rewrite Hg.
    cbn [fmap option_fmap option_map option_list app].
    rewrite Hrev, (words_blank_app gap _ Hblank), (IH Hrest). reflexivity.
Qed.

Lemma three_fields_spec (l : list string) :
  firstn 3 l ++ replicate (3 - length (firstn 3 l)) "" = three_fields l.
Proof. destruct l as [| a [| b [| c l]]]; reflexivity. Qed.

(** The splitter returns the fields of the line.  Take a line made of white
    space (possibly none), then fields separated by white space, each field
    with at least one character.  [FindColumn] returns the first three
    fields, with empty strings for the missing ones, behind the four-space
    mark when the line starts with a space or a tab; the fields after the
    third (a comment) are dropped, and the state is left as it was. *)
Theorem FindColumn_fields (lead : string) (fs : list (string * string))
    (w : world) :
  blank lead = true -> fields_ok fs = true ->
  lead +:+ join_fields fs <> "" ->
  FindColumn (lead +:+ join_fields fs) w
  = (Ret (three_fields
            ((if leading_blank lead then ["    "] else []) ++ map fst fs)),
     w).
Proof.
  intros Hlead Hfs Hne.
  assert (Hfirst : exists c r,
             lead +:+ join_fields fs = String c r
             /\ Ascii.eqb (untab c) " " = leading_blank lead).
  { destruct lead as [| c lead].
    - change ("" +:+ join_fields fs) with (join_fields fs) in *.
      destruct fs as [| [wd gap] rest]; [contradiction |].
      cbn [fields_ok] in Hfs. apply andb_prop in Hfs as [Hfs _].
      apply andb_prop in Hfs as [Hfs _]. apply andb_prop in Hfs as [Hwd _].
      unfold is_word in Hwd. apply andb_prop in Hwd as [Hw1 Hw2].
      destruct wd as [| a wd]; [discriminate Hw1 |].
      simpl in Hw2. apply andb_prop in Hw2 as [Ha _].
      exists a, (wd +:+ gap +:+ join_fields rest). split; [reflexivity |].
      clear -Ha. destruct a as [[] [] [] [] [] [] [] []];
        try discriminate Ha; reflexivity.
    - exists c, (lead +:+ join_fields fs). split; [reflexivity |].
      unfold untab. cbn [leading_blank].
      destruct (Ascii.eqb c "009"); [now rewrite orb_true_r |].
      now rewrite orb_false_r. }
  destruct Hfirst as (c & r & Hline & Hmark).
  unfold FindColumn, Py.split, String.words.
  rewrite (words_untab (lead +:+ join_fields fs) None).
  rewrite (words_blank_app lead _ Hlead), (words_join_fields fs Hfs).
  rewrite Hline. cbn [map_chars]. unfold char_at.
  change (Py.getitem (String (untab c) ?s) 0) with (Some (untab c)). run.
  rewrite Hmark, three_fields_spec. reflexivity.
Qed.

(** A labelled line with a comment, and an unlabelled one that starts with a
    tab. *)
Lemma FindColumn_fields_witness :
  FindColumn ("FIRST  LDA ALPHA  load it" +:+ String "010" "") world0
  = (Ret ["FIRST"; "LDA"; "ALPHA"], world0)
  /\ FindColumn (String "009" "RSUB" +:+ String "010" "") world0
     = (Ret ["    "; "RSUB"; ""], world0).
Proof.
  split.
  - apply (FindColumn_fields ""
             [("FIRST", "  "); ("LDA", " "); ("ALPHA", "  "); ("load", " ");
              ("it", String "010" "")] world0).
    + reflexivity.
    + reflexivity.
    + discriminate.
  - apply (FindColumn_fields (String "009" "")
             [("RSUB", String "010" "")] world0).
    + reflexivity.
    + reflexivity.
    + discriminate.
Defined.

(** ** Location-Counter Pass: lines that take no space, START, the table *)

(** A BASE line and a full-line comment get the blank address column; the
    location counter and the rest of the state stay as they were. *)
Theorem FindOffset_no_space (label op operand : string) (r : string)
    (w : world) :
  op = "BASE" \/ label = String "." r ->
  FindOffset [label; op; operand] w
  = (Ret ["     "; label; op; operand], w).
Proof.
  intros [-> | ->]; [reflexivity |].
  unfold FindOffset, item, char_at. simpl lookup. run.
  destruct (String.eqb op "BASE"); reflexivity.
Qed.

(** A comment line at counter 0x1000. *)
Lemma FindOffset_no_space_witness :
  FindOffset [". read"; "one"; "record"] (World 4096 ∅ [] "")
  = (Ret ["     "; ". read"; "one"; "record"], World 4096 ∅ [] "").
Proof.
  apply (FindOffset_no_space ". read" "one" "record" " read"
           (World 4096 ∅ [] "")).
  right. reflexivity.
Defined.

(** A START line gets the counter's value before the line as its address,
    and sets the counter to its operand read in base 16; an operand that is
    no hexadecimal literal raises ValueError and leaves the state as it
    was. *)
Theorem FindOffset_START (label operand : string) (c : ascii) (w : world) :
  Py.getitem label 0 = Some c -> c <> "."%char ->
  FindOffset [label; "START"; operand] w
  = match Py.int_of 16 operand with
    | Some v => (Ret [address_of (LOCCTR w); label; "START"; operand],
                 World v (SYMTAB w) (stdout w) (target w))
    | None => (Raise Py.ValueError, w)
    end.
Proof.
  intros Hl Hc. apply ascii_eqb_false in Hc.
  unfold FindOffset, item, char_at. simpl lookup. run. tests. cbv beta iota.
  rewrite Hl. run. rewrite Hc. run. tests. cbv beta iota.
  destruct (Py.int_of 16 operand); reflexivity.
Qed.

(** [COPY START 1000]: the counter becomes 0x1000 = 4096. *)
Lemma FindOffset_START_witness :
  FindOffset ["COPY"; "START"; "1000"] world0
  = (Ret ["00000"; "COPY"; "START"; "1000"], World 4096 ∅ [] "").
Proof.
  exact (FindOffset_START "COPY" "1000" "C" world0 eq_refl
           ltac:(discriminate)).
Defined.

(** A row with a label enters the Symbol Table: afterwards the label maps to
    the row's address column, every other entry is as before, and nothing
    else of the state has changed. *)
Theorem FillSymTab_lookup (addr label op operand : string) (w : world) :
  label <> "    " -> label <> "." ->
  exists w',
    FillSymTab [addr; label; op; operand] w = (Ret tt, w')
    /\ SYMTAB w' !! label = Some addr
    /\ (forall k, k <> label -> SYMTAB w' !! k = SYMTAB w !! k)
    /\ LOCCTR w' = LOCCTR w /\ stdout w' = stdout w /\ target w' = target w.
Proof.
  intros H1 H2. apply eqb_false in H1, H2.
  unfold FillSymTab, item. simpl lookup. run. rewrite H1, H2.
  eexists. split; [reflexivity |]. simpl. repeat split.
  - apply lookup_insert_eq.
  - intros k Hk. apply lookup_insert_ne. congruence.
Qed.

(** A second definition of label A replaces the first. *)
Lemma FillSymTab_lookup_witness :
  exists w',
    FillSymTab ["01000"; "A"; "LDA"; "B"] world_AB = (Ret tt, w')
    /\ SYMTAB w' !! "A" = Some "01000"
    /\ (forall k, k <> "A" -> SYMTAB w' !! k = SYMTAB world_AB !! k)
    /\ LOCCTR w' = LOCCTR world_AB /\ stdout w' = stdout world_AB
    /\ target w' = target world_AB.
Proof.
  apply (FillSymTab_lookup "01000" "A" "LDA" "B" world_AB); discriminate.
Defined.

(** *** Full-line comments *)

(** The word being read when the splitter is in the middle of one. *)
Lemma words_go_first (s : string) : forall cur,
  exists (t : string) (rest : list string),
    String.words_go (Some cur) s = (String.rev cur +:+ t) :: rest.
Proof.
  induction s as [| a s IH]; intros cur.
  - exists "", []. simpl. f_equal. clear.
    generalize (String.rev cur). intros s.
    induction s as [| c s IH]; [reflexivity |].
    change (String c s = String c (s +:+ "")). now rewrite <- IH.
  - simpl. destruct (Ascii.is_space a).
    + exists "", (String.words_go None s). simpl. f_equal. clear.
      generalize (String.rev cur). intros s.
      induction s as [| c s IH]; [reflexivity |].
      change (String c s = String c (s +:+ "")). now rewrite <- IH.
    + destruct (IH (String a cur)) as (t & rest & ->).
      exists (String a t), rest. f_equal.
      unfold String.rev. simpl. rewrite (rev_app_app cur (String a "")).
      now rewrite string_app_assoc.
Qed.

(** A line that starts with a dot is a comment for Pass 1: it gets the
    blank address column and the location counter stays where it was.  But
    unless its first word is the dot alone, that word is entered in the
    Symbol Table, with the blank address: only the label [.] is skipped. *)
Theorem comment_line_keeps_counter (r : string) (w : world) :
  exists t c1 c2 : string,
    FirstPass_line (String "." r) w
    = (Ret ["     "; String "." t; c1; c2],
       if String.eqb t ""
       then w
       else World (LOCCTR w) (<[String "." t := "     "]> (SYMTAB w))
              (stdout w) (target w)).
Proof.
  destruct (words_go_first (map_chars untab r) ".") as (t & rest & Hw).
  change (String.rev "." +:+ t) with (String "." t) in Hw.
  assert (HC : exists c1 c2,
             FindColumn (String "." r) w = (Ret [String "." t; c1; c2], w)).
  { unfold FindColumn, Py.split, String.words. simpl map_chars.
    change (untab ".") with "."%char.
    change (String.words_go None (String "." (map_chars untab r)))
      with (String.words_go (Some ".") (map_chars untab r)).
    rewrite Hw. unfold char_at.
    change (Py.getitem (String "." ?s) 0) with (Some "."%char). run.
    change (Ascii.eqb "." " ") with false. cbv iota.
    destruct rest as [| c1 [| c2 rest]]; do 2 eexists; reflexivity. }
  destruct HC as (c1 & c2 & HC). exists t, c1, c2.
  unfold FirstPass_line. unfold bind at 1. rewrite HC.
  unfold bind at 1.
  assert (HO : FindOffset [String "." t; c1; c2] w
               = (Ret ["     "; String "." t; c1; c2], w)).
  { unfold FindOffset, item, char_at. simpl lookup. run.
    destruct (String.eqb c1 "BASE"); reflexivity. }
  rewrite HO.
  unfold FillSymTab, item. simpl lookup. run.
  change (String.eqb (String "." t) ".") with (String.eqb t "").
  change (String.eqb (String "." t) "    ") with false. cbv iota.
  destruct (String.eqb t ""); reflexivity.
Qed.

(** *** The rows Pass 1 hands to Pass 2 *)

Lemma ensures_ret {A} (a : A) (P : A -> Prop) : P a -> ensures (ret a) P.
Proof. intros H w a' w' [= <- _]. exact H. Qed.

Lemma ensures_raise {A} (e : Py.exn) (P : A -> Prop) : ensures (raise e) P.
Proof. intros w a w' H. discriminate H. Qed.

Lemma ensures_bind {A B} (m : M A) (k : A -> M B) (Q : A -> Prop)
    (P : B -> Prop) :
  ensures m Q -> (forall a, Q a -> ensures (k a) P) -> ensures (bind m k) P.
Proof.
  intros Hm Hk w b w' H. unfold bind in H.
  destruct (m w) as [[a | e] w1] eqn:E; [| discriminate].
  exact (Hk a (Hm _ _ _ E) _ _ _ H).
Qed.

Lemma ensures_any {A} (m : M A) : ensures m (fun _ => True).
Proof. intros w a w' _. exact I. Qed.

Lemma ensures_then {A B} (m : M A) (k : A -> M B) (P : B -> Prop) :
  (forall a, ensures (k a) P) -> ensures (bind m k) P.
Proof.
  intros Hk. apply (ensures_bind m k (fun _ => True)); auto using ensures_any.
Qed.

Ltac ensures_step :=
  first
    [ progress cbv zeta
    | apply ensures_raise
    | apply ensures_then; intros ?
    | match goal with
      | |- ensures (if ?b then _ else _) _ => destruct b
      | |- ensures (match ?x with _ => _ end) _ => destruct x
      end ].

Lemma FindOffset_inserts (columns : list string) :
  ensures (FindOffset columns) (fun r => exists a, r = a :: columns).
Proof.
  unfold FindOffset.
  repeat ensures_step; apply ensures_ret; eexists; reflexivity.
Qed.

Lemma FindColumn_three (line : string) :
  ensures (FindColumn line) (fun cols => length cols = 3%nat).
Proof.
  unfold FindColumn. apply ensures_then; intros c. cbv zeta.
  apply ensures_ret.
  rewrite length_app, length_replicate, length_firstn. lia.
Qed.

(** The fields of a line do not depend on the state. *)
Lemma FindColumn_pure (line : string) (w w1 : world) (cols : list string) :
  FindColumn line w = (Ret cols, w1) ->
  forall w0, FindColumn line w0 = (Ret cols, w0).
Proof.
  unfold FindColumn, char_at. run.
  destruct (Py.getitem (map_chars untab line) 0); [| discriminate].
  intros [= <- _] w0. reflexivity.
Qed.

(** The row of a line: its three fields behind an address column. *)
Lemma FirstPass_line_row (line : string) (w w1 : world) (row : list string) :
  FirstPass_line line w = (Ret row, w1) ->
  exists addr label op operand : string,
    (forall w0, FindColumn line w0 = (Ret [label; op; operand], w0))
    /\ row = [addr; label; op; operand].
Proof.
  intros H. unfold FirstPass_line in H. unfold bind at 1 in H.
  destruct (FindColumn line w) as [[cols | e] wa] eqn:EC; [| discriminate].
  pose proof (FindColumn_three line _ _ _ EC) as Hlen.
  unfold bind at 1 in H.
  destruct (FindOffset cols wa) as [[row' | e] wb] eqn:EO; [| discriminate].
  destruct (FindOffset_inserts cols _ _ _ EO) as [a ->].
  assert (E : ensures
                (c1 <- item (a :: cols) 1 ;;
                 (if String.eqb c1 "." then ret tt
                  else FillSymTab (a :: cols)) ;;;
                 ret (a :: cols))
                (fun r => r = a :: cols))
    by (repeat ensures_step; apply ensures_ret; reflexivity).
  rewrite (E _ _ _ H).
  destruct cols as [| l [| o [| p [| q cols]]]]; try discriminate Hlen.
  exists a, l, o, p. split; [| reflexivity].
  exact (FindColumn_pure line _ _ _ EC).
Qed.

(** When Pass 1 returns, its rows go with the lines of the file one by one
    and in order: the row of each line is made of four columns, an address
    column and then the three fields that the splitter gives for that
    line. *)
Theorem FirstPass_rows (lines : list string) (w w' : world)
    (rows : list (list string)) :
  FirstPass lines w = (Ret rows, w') ->
  Forall2
    (fun line row =>
       exists addr label op operand : string,
         (forall w0, FindColumn line w0 = (Ret [label; op; operand], w0))
         /\ row = [addr; label; op; operand])
    lines rows.
Proof.
  revert w w' rows. induction lines as [| line rest IH]; intros w w' rows H.
  - injection H as <- _. constructor.
  - simpl in H. unfold bind at 1 in H.
    destruct (FirstPass_line line w) as [[row | e] w1] eqn:E1; [| discriminate].
    unfold bind at 1 in H.
    destruct (FirstPass rest w1) as [[rows' | e] w2] eqn:E2; [| discriminate].
    injection H as <- _.
    constructor; [exact (FirstPass_line_row line _ _ _ E1) |].
    exact (IH _ _ _ E2).
Qed.

(** The three lines of the specification's scenario. *)
Lemma FirstPass_rows_witness :
  Forall2
    (fun line row =>
       exists addr label op operand : string,
         (forall w0, FindColumn line w0 = (Ret [label; op; operand], w0))
         /\ row = [addr; label; op; operand])
    prog_scenario
    [["00000"; "COPY"; "START"; "1000"];
     ["01000"; "FIRST"; "LDA"; "ALPHA"];
     ["01003"; "ALPHA"; "WORD"; "5"]].
Proof.
  apply (FirstPass_rows prog_scenario world0
           (snd (FirstPass prog_scenario world0))).
  vm_compute. reflexivity.
Defined.

(** ** Hexadecimal fields *)

Lemma is_hex_digit_value (c : ascii) :
  is_hex_digit c = true ->
  exists d, Py.digit_value c = Some d /\ 0 <= d < 16.
Proof.
  unfold is_hex_digit.
  destruct c as [[] [] [] [] [] [] [] []]; vm_compute; intros H;
    try discriminate H; eexists; (split; [reflexivity |]); split;
    discriminate || reflexivity.
Qed.

Lemma all_chars_app (f : ascii -> bool) (s t : string) :
  all_chars f (s +:+ t) = all_chars f s && all_chars f t.
Proof.
  induction s as [| c s IH]; [reflexivity |].
  change (String c s +:+ t) with (String c (s +:+ t)). simpl.
  now rewrite IH, andb_assoc.
Qed.

Lemma all_chars_zeros (n : nat) : all_chars is_hex_digit (Py.zeros n) = true.
Proof. induction n as [| n IH]; [reflexivity | exact IH]. Qed.

Lemma length_zeros (n : nat) : String.length (Py.zeros n) = n.
Proof. induction n as [| n IH]; [reflexivity | simpl; now rewrite IH]. Qed.

(** [hex] prints a positive number on [k + 1] digits when the number is
    between [16 ^ k] and [16 ^ (k + 1)]. *)
Lemma of_pos_digits (p : positive) :
  exists k : nat,
    16 ^ Z.of_nat k <= Z.pos p < 16 ^ Z.of_nat (S k)
    /\ forall rest,
         String.length (HexString.Raw.of_pos p rest)
         = (S k + String.length rest)%nat
         /\ (all_chars is_hex_digit rest = true ->
             all_chars is_hex_digit (HexString.Raw.of_pos p rest) = true).
Proof.
  revert p; fix of_pos_digits 1; intros p.
  do 4 try destruct p as [p | p |];
    try (exists 0%nat; split; [simpl; lia |];
         intros rest; split; [reflexivity | intros H; exact H]);
    destruct (of_pos_digits p) as (k & Hk & Hrest); exists (S k);
    (split;
     [ rewrite !Nat2Z.inj_succ, !Z.pow_succ_r in * by lia; lia
     | intros rest; cbn [HexString.Raw.of_pos];
       match goal with
       | |- context [HexString.Raw.of_pos p ?r] =>
           destruct (Hrest r) as [Hlen Hall]
       end;
       split; [rewrite Hlen; simpl; lia | intros H; apply Hall; exact H] ]).
Qed.

(** [hex(n)[2:].zfill(width)] for [0 <= n]: hexadecimal digits only, that
    read back as [n]; exactly [width] of them when [n < 16 ^ width]. *)
Lemma hex_field (width : nat) (n : Z) :
  0 <= n ->
  let s := Py.zfill (Z.of_nat width) (Py.slice_from (Py.hex n) 2) in
  all_chars is_hex_digit s = true
  /\ Py.parse_digits 16 s 0 = Some n
  /\ s <> ""
  /\ (n < 16 ^ Z.of_nat width -> (0 < width)%nat ->
      String.length s = width).
Proof.
  intros Hn. destruct n as [| p | p]; [| | lia].
  - change (Py.slice_from (Py.hex 0) 2) with "0".
    unfold Py.zfill. change (Py.len "0") with 1.
    destruct (Z.leb_spec (Z.of_nat width) 1) as [Hw | Hw]; cbv zeta.
    + repeat split; try discriminate. intros _ H. simpl. lia.
    + change (Ascii.eqb "0" "+" || Ascii.eqb "0" "-")%bool with false.
      cbv iota. repeat split.
      * now rewrite all_chars_app, all_chars_zeros.
      * now rewrite parse_zeros.
      * destruct (Z.to_nat (Z.of_nat width - 1)); discriminate.
      * intros _ _. rewrite string_length_app, length_zeros. simpl. lia.
  - rewrite hex_digits_pos.
    destruct (of_pos_digits p) as (k & Hk & Hrest).
    destruct (Hrest "") as [Hlen Hall]. specialize (Hall eq_refl).
    destruct (parse_of_pos p) as [k' Hparse].
    specialize (Hparse "" 0). cbn [Py.parse_digits] in Hparse.
    rewrite Z.mul_0_l, Z.add_0_l in Hparse.
    set (ds := HexString.Raw.of_pos p "") in *.
    simpl String.length in Hlen. rewrite Nat.add_0_r in Hlen.
    unfold Py.zfill, Py.len. rewrite Hlen.
    destruct (Z.leb_spec (Z.of_nat width) (Z.of_nat (S k))) as [Hw | Hw];
      cbv zeta.
    + repeat split; try assumption.
      * intros ->. discriminate Hlen.
      * intros Hp Hpos. rewrite Hlen.
        assert (16 ^ Z.of_nat k < 16 ^ Z.of_nat width) by lia.
        apply Z.pow_lt_mono_r_iff in H; lia.
    + destruct ds as [| c r] eqn:Hds; [discriminate |].
      simpl in Hall. apply andb_prop in Hall as [Hc Hr].
      destruct (is_hex_digit_value c Hc) as (d & Hd & Hrange).
      destruct (digit_value_facts c d Hd ltac:(lia)) as (_ & -> & -> & _).
      simpl orb. cbv iota. repeat split.
      * rewrite all_chars_app, all_chars_zeros. simpl. now rewrite Hc, Hr.
      * now rewrite parse_zeros.
      * destruct (Z.to_nat _); discriminate.
      * intros _ _. rewrite string_length_app, length_zeros, Hlen. lia.
Qed.

(** While the location counter is below 16^5 = 2^20, the address column is
    exactly five hexadecimal digits. *)
Theorem address_of_width (loc : Z) :
  0 <= loc < 1048576 ->
  String.length (address_of loc) = 5%nat
  /\ all_chars is_hex_digit (address_of loc) = true.
Proof.
  intros H. destruct (hex_field 5 loc ltac:(lia)) as (Hall & _ & _ & Hlen).
  split; [apply Hlen; [simpl; lia | lia] | exact Hall].
Qed.

(** The largest address of the SIC/XE memory. *)
Lemma address_of_width_witness :
  String.length (address_of 1048575) = 5%nat
  /\ all_chars is_hex_digit (address_of 1048575) = true.
Proof. apply (address_of_width 1048575). lia. Defined.

(** ** The bytes written for a string of hexadecimal digits *)

(** Induction on a string, two characters at a time. *)
Lemma string_pairs_ind (P : string -> Prop) :
  P "" -> (forall a, P (String a "")) ->
  (forall a b r, P r -> P (String a (String b r))) ->
  forall s, P s.
Proof.
  intros H0 H1 H2 s.
  assert (H : P s /\ forall a, P (String a s)).
  { induction s as [| c s [IH IH']]; split; auto. }
  apply H.
Qed.

Lemma chr_ord (v : Z) (c : ascii) : Py.chr v = Some c -> Py.ord c = v.
Proof.
  unfold Py.chr, Py.ord.
  destruct (Z.leb_spec 0 v); [| discriminate].
  destruct (Z.ltb_spec v 256); [| discriminate].
  simpl. intros [= <-]. rewrite N_ascii_embedding by lia. lia.
Qed.

Lemma hex_pair_int (a b : ascii) (da db : Z) :
  Py.digit_value a = Some da -> da < 16 ->
  Py.digit_value b = Some db -> db < 16 ->
  Py.int_of 16 (String a (String b "")) = Some (16 * da + db).
Proof.
  intros Ha Hda Hb Hdb. apply int_of_digits; [discriminate |].
  simpl. rewrite Ha. destruct (Z.ltb_spec da 16); [| lia].
  rewrite Hb. destruct (Z.ltb_spec db 16); [| lia]. f_equal. lia.
Qed.

Lemma hex_single_int (a : ascii) (da : Z) :
  Py.digit_value a = Some da -> da < 16 ->
  Py.int_of 16 (String a "") = Some da.
Proof.
  intros Ha Hda. apply int_of_digits; [discriminate |].
  simpl. rewrite Ha. destruct (Z.ltb_spec da 16); [| lia]. f_equal.
Qed.

(** A string of hexadecimal digits is written as one byte for each pair of
    digits, without touching the state. *)
Lemma to_bytes_hex (s : string) (w : world) :
  all_chars is_hex_digit s = true ->
  exists out : string,
    to_bytes (chunks2 s) w = (Ret out, w)
    /\ ords out = pair_values s
    /\ String.length out = ((String.length s + 1) / 2)%nat.
Proof.
  revert s.
  apply (string_pairs_ind (fun s => all_chars is_hex_digit s = true -> _)).
  - intros _. exists "". repeat split.
  - intros a H. simpl in H. rewrite andb_true_r in H.
    destruct (is_hex_digit_value a H) as (da & Ha & Hda).
    assert (Hc : exists c, Py.chr da = Some c).
    { unfold Py.chr. destruct (Z.leb_spec 0 da); [| lia].
      destruct (Z.ltb_spec da 256); [| lia]. eexists; reflexivity. }
    destruct Hc as [c Hc]. exists (String c "").
    cbn [chunks2 to_bytes]. unfold bind at 1. unfold int_, or_raise.
    rewrite (hex_single_int a da Ha) by lia. unfold ret at 1. cbv beta iota.
    unfold bind at 1. rewrite Hc. unfold ret at 1. cbv beta iota.
    repeat split. simpl. rewrite Ha. simpl. now rewrite (chr_ord _ _ Hc).
  - intros a b r IH H. simpl in H.
    apply andb_prop in H as [Ha H]. apply andb_prop in H as [Hb Hr].
    destruct (is_hex_digit_value a Ha) as (da & Hda & Hra).
    destruct (is_hex_digit_value b Hb) as (db & Hdb & Hrb).
    destruct (IH Hr) as (out & Hout & Hords & Hlen).
    assert (Hc : exists c, Py.chr (16 * da + db) = Some c).
    { unfold Py.chr. destruct (Z.leb_spec 0 (16 * da + db)); [| lia].
      destruct (Z.ltb_spec (16 * da + db) 256); [| lia].
      eexists; reflexivity. }
    destruct Hc as [c Hc]. exists (String c out).
    cbn [chunks2 to_bytes]. unfold bind at 1. unfold int_, or_raise.
    rewrite (hex_pair_int a b da db Hda) by (assumption || lia).
    unfold ret at 1. cbv beta iota.
    unfold bind at 1. rewrite Hc. unfold ret at 1. cbv beta iota.
    unfold bind at 1. rewrite Hout. unfold ret. cbv beta iota.
    repeat split.
    + cbn [ords pair_values]. rewrite Hda, Hdb. simpl default.
      now rewrite (chr_ord _ _ Hc), Hords.
    + cbn [String.length]. rewrite Hlen. clear.
      generalize (String.length r). intros n.
      change (S (S n) + 1)%nat with (2 + (n + 1))%nat.
      rewrite (Nat.div_add_l 1 2) by lia. lia.
Qed.

(** An even number of hexadecimal digits reads, in base 16, as the
    big-endian value of its pairs. *)
Lemma pair_values_parse (s : string) :
  Nat.even (String.length s) = true ->
  all_chars is_hex_digit s = true ->
  forall acc,
    Py.parse_digits 16 s acc
    = Some (fold_left (fun a b => a * 256 + b) (pair_values s) acc).
Proof.
  revert s.
  apply (string_pairs_ind
           (fun s => Nat.even (String.length s) = true ->
                     all_chars is_hex_digit s = true -> forall acc, _)).
  - reflexivity.
  - intros a H. discriminate H.
  - intros a b r IH Heven Hall acc.
    simpl in Hall. apply andb_prop in Hall as [Ha Hall].
    apply andb_prop in Hall as [Hb Hr].
    destruct (is_hex_digit_value a Ha) as (da & Hda & Hra).
    destruct (is_hex_digit_value b Hb) as (db & Hdb & Hrb).
    cbn [Py.parse_digits pair_values fold_left]. rewrite Hda, Hdb.
    destruct (Z.ltb_spec da 16); [| lia]. destruct (Z.ltb_spec db 16); [| lia].
    simpl default. rewrite (IH Heven Hr). do 2 f_equal. lia.
Qed.

(** ** Encoding Pass: the storage directives *)

Lemma to_bytes_zeros (k : nat) (w : world) :
  to_bytes (chunks2 (Py.zeros (2 * k))) w = (Ret (nuls k), w).
Proof.
  induction k as [| k IH]; [reflexivity |].
  replace (2 * S k)%nat with (S (S (2 * k))) by lia.
  change (chunks2 (Py.zeros (S (S (2 * k)))))
    with ("00" :: chunks2 (Py.zeros (2 * k))).
  cbn [to_bytes]. unfold bind at 1.
  change (int_ 16 (Some "00") w) with (Ret 0 : outcome Z, w).
  cbv beta iota. unfold bind at 1.
  change (or_raise Py.ValueError (Py.chr 0) w)
    with (Ret "000"%char : outcome ascii, w).
  cbv beta iota. unfold bind at 1. rewrite IH. reflexivity.
Qed.

Lemma ords_nuls (k : nat) : ords (nuls k) = repeat 0 k.
Proof. induction k as [| k IH]; [reflexivity |]. simpl. now rewrite IH. Qed.

(** RESB n, for n below the memory size 2^20, writes n bytes of value zero
    to the file (none for a negative n), whatever the label column holds,
    and records 2n zero digits in the row. *)
Theorem RESB_zero_fill (addr label operand : string) (n : Z)
    (basevar : option string) (w : world) :
  Py.int_of 10 operand = Some n -> n < 1048576 ->
  exists out : string,
    SecondPass_elem basevar [addr; label; "RESB"; operand] w
    = (Ret (basevar, [addr; label; "RESB"; operand;
                      Py.zeros (Z.to_nat (n * 2))]),
       World (LOCCTR w) (SYMTAB w) (stdout w) (target w +:+ out))
    /\ ords out = repeat 0 (Z.to_nat n).
Proof.
  intros Hn _. exists (nuls (Z.to_nat n)). split; [| apply ords_nuls].
  unfold SecondPass_elem. run. tests. cbv beta iota. rewrite Hn. run.
  replace (Z.to_nat (n * 2)) with (2 * Z.to_nat n)%nat by lia.
  change ("" +:+ Py.zeros (2 * Z.to_nat n)) with (Py.zeros (2 * Z.to_nat n)).
  rewrite to_bytes_zeros. reflexivity.
Qed.

(** [BUFFER RESB 4]: four zero bytes. *)
Lemma RESB_zero_fill_witness :
  exists out : string,
    SecondPass_elem (Some "0") ["01000"; "BUFFER"; "RESB"; "4"] world0
    = (Ret (Some "0", ["01000"; "BUFFER"; "RESB"; "4";
                       Py.zeros (Z.to_nat (4 * 2))]),
       World (LOCCTR world0) (SYMTAB world0) (stdout world0)
             (target world0 +:+ out))
    /\ ords out = repeat 0 (Z.to_nat 4).
Proof.
  apply (RESB_zero_fill "01000" "BUFFER" "4" 4 (Some "0") world0).
  - reflexivity.
  - lia.
Defined.

(** RESW n, for n below the memory size 2^20, writes 3n bytes of value zero
    to the file and records 6n zero digits in the row. *)
Theorem RESW_zero_fill (addr label operand : string) (n : Z)
    (basevar : option string) (w : world) :
  Py.int_of 10 operand = Some n -> n < 1048576 ->
  exists out : string,
    SecondPass_elem basevar [addr; label; "RESW"; operand] w
    = (Ret (basevar, [addr; label; "RESW"; operand;
                      Py.zeros (Z.to_nat (n * 6))]),
       World (LOCCTR w) (SYMTAB w) (stdout w) (target w +:+ out))
    /\ ords out = repeat 0 (Z.to_nat (3 * n)).
Proof.
  intros Hn _. exists (nuls (Z.to_nat (3 * n))). split; [| apply ords_nuls].
  unfold SecondPass_elem. run. tests. cbv beta iota. rewrite Hn. run.
  replace (Z.to_nat (n * 6)) with (2 * Z.to_nat (3 * n))%nat by lia.
  change ("" +:+ Py.zeros (2 * Z.to_nat (3 * n)))
    with (Py.zeros (2 * Z.to_nat (3 * n))).
  rewrite to_bytes_zeros. reflexivity.
Qed.

(** [TABLE RESW 2]: six zero bytes. *)
Lemma RESW_zero_fill_witness :
  exists out : string,
    SecondPass_elem (Some "0") ["01000"; "TABLE"; "RESW"; "2"] world0
    = (Ret (Some "0", ["01000"; "TABLE"; "RESW"; "2";
                       Py.zeros (Z.to_nat (2 * 6))]),
       World (LOCCTR world0) (SYMTAB world0) (stdout world0)
             (target world0 +:+ out))
    /\ ords out = repeat 0 (Z.to_nat (3 * 2)).
Proof.
  apply (RESW_zero_fill "01000" "TABLE" "2" 2 (Some "0") world0).
  - reflexivity.
  - lia.
Defined.

(** WORD n, for [0 <= n < 2^24], writes exactly three bytes, the big-endian
    representation of n. *)
Theorem WORD_three_bytes (addr label operand : string) (c : ascii) (n : Z)
    (basevar : option string) (w : world) :
  Py.getitem label 0 = Some c -> c <> "."%char ->
  Py.int_of 10 operand = Some n -> 0 <= n < 16777216 ->
  exists out : string,
    SecondPass_elem basevar [addr; label; "WORD"; operand] w
    = (Ret (basevar,
            [addr; label; "WORD"; operand;
             Py.zfill 6 (Py.slice_from (Py.hex n) 2)]),
       World (LOCCTR w) (SYMTAB w) (stdout w) (target w +:+ out))
    /\ String.length out = 3%nat
    /\ be_value (ords out) = n.
Proof.
  intros Hl Hc Hn Hrange. apply ascii_eqb_false in Hc.
  destruct (hex_field 6 n ltac:(lia)) as (Hall & Hparse & _ & Hlen).
  specialize (Hlen ltac:(simpl; lia) ltac:(lia)).
  change (Z.of_nat 6) with 6 in *.
  set (s := Py.zfill 6 (Py.slice_from (Py.hex n) 2)) in *.
  destruct (to_bytes_hex s w Hall) as (out & Hout & Hords & Hbytes).
  exists out. repeat split.
  - unfold SecondPass_elem. run. tests. cbv beta iota.
    rewrite Hl. run. rewrite Hc, Hn. run. fold s.
    change ("" +:+ s) with s. rewrite Hout. reflexivity.
  - rewrite Hbytes, Hlen. reflexivity.
  - unfold be_value. rewrite Hords.
    assert (Heven : Nat.even (String.length s) = true) by now rewrite Hlen.
    pose proof (pair_values_parse s Heven Hall 0) as H.
    rewrite Hparse in H. now injection H.
Qed.

(** [THREE WORD 4096]: the bytes 00 10 00. *)
Lemma WORD_three_bytes_witness :
  exists out : string,
    SecondPass_elem (Some "0") ["01000"; "THREE"; "WORD"; "4096"] world0
    = (Ret (Some "0",
            ["01000"; "THREE"; "WORD"; "4096";
             Py.zfill 6 (Py.slice_from (Py.hex 4096) 2)]),
       World (LOCCTR world0) (SYMTAB world0) (stdout world0)
             (target world0 +:+ out))
    /\ String.length out = 3%nat
    /\ be_value (ords out) = 4096.
Proof.
  apply (WORD_three_bytes "01000" "THREE" "4096" "T" 4096 (Some "0") world0).
  - reflexivity.
  - discriminate.
  - reflexivity.
  - lia.
Defined.

(** *** BYTE *)

Lemma char_hex_roundtrip (c : ascii) :
  two_digit_char c = true ->
  exists a b : ascii,
    Py.slice_from (Py.hex (Py.ord c)) 2 = String a (String b "")
    /\ Py.int_of 16 (String a (String b "")) = Some (Py.ord c)
    /\ Py.chr (Py.ord c) = Some c.
Proof.
  destruct c as [[] [] [] [] [] [] [] []]; intros H;
    try discriminate H; do 2 eexists; repeat split; vm_compute; reflexivity.
Qed.

Lemma to_bytes_hex_of_chars (text : string) (w : world) :
  all_chars two_digit_char text = true ->
  to_bytes (chunks2 (hex_of_chars text)) w = (Ret text, w).
Proof.
  induction text as [| c r IH]; [reflexivity |].
  simpl all_chars. intros H. apply andb_prop in H as [Hc Hr].
  destruct (char_hex_roundtrip c Hc) as (a & b & Hhex & Hint & Hchr).
  cbn [hex_of_chars]. rewrite Hhex.
  change (String a (String b "") +:+ hex_of_chars r)
    with (String a (String b (hex_of_chars r))).
  cbn [chunks2 to_bytes]. unfold bind at 1. unfold int_, or_raise.
  rewrite Hint. unfold ret at 1. cbv beta iota.
  unfold bind at 1. rewrite Hchr. unfold ret at 1. cbv beta iota.
  unfold bind at 1. rewrite (IH Hr). reflexivity.
Qed.

Lemma string_take_app (t u : string) : Py.take (String.length t) (t +:+ u) = t.
Proof.
  induction t as [| c t IH]; [now destruct u |].
  change (String c t +:+ u) with (String c (t +:+ u)). simpl. now rewrite IH.
Qed.

(** [s[2:len(s) - 1]] of a quoted literal is the text between the quotes. *)
Lemma slice_literal (k q : ascii) (text : string) :
  let s := String k (String q (text +:+ String q "")) in
  Py.slice s 2 (Py.len s - 1) = text.
Proof.
  intros s. unfold Py.slice, Py.clamp, Py.len.
  assert (Hlen : Z.of_nat (String.length s) = Z.of_nat (String.length text) + 3).
  { unfold s. simpl String.length. rewrite string_length_app. simpl. lia. }
  rewrite Hlen.
  destruct (Z.ltb_spec 2 0); [lia |].
  destruct (Z.ltb_spec (Z.of_nat (String.length text) + 3 - 1) 0); [lia |].
  rewrite !Z.min_l by lia.
  replace (Z.to_nat (Z.of_nat (String.length text) + 3 - 1 - 2))
    with (String.length text) by lia.
  change (Z.to_nat 2) with 2%nat. unfold s. simpl Py.drop. apply string_take_app.
Qed.

(** BYTE C'text' writes the characters of the text to the file, one byte
    each, when every character has a code of at least 16 (so that [hex]
    prints it on two digits), and records their hexadecimal codes in the
    row. *)
Theorem BYTE_C_writes_text (addr label text : string) (c : ascii)
    (basevar : option string) (w : world) :
  Py.getitem label 0 = Some c -> c <> "."%char ->
  all_chars two_digit_char text = true ->
  SecondPass_elem basevar [addr; label; "BYTE"; "C'" +:+ text +:+ "'"] w
  = (Ret (basevar,
          [addr; label; "BYTE"; "C'" +:+ text +:+ "'"; hex_of_chars text]),
     World (LOCCTR w) (SYMTAB w) (stdout w) (target w +:+ text)).
Proof.
  intros Hl Hc Htext. apply ascii_eqb_false in Hc.
  change ("C'" +:+ text +:+ "'")
    with (String "C" (String "'" (text +:+ String "'" ""))).
  unfold SecondPass_elem. run. tests. cbv beta iota.
  rewrite Hl. run. rewrite Hc.
  change (Py.getitem (String "C" ?s) 0) with (Some "C"%char). run. tests.
  cbv beta iota.
  rewrite (slice_literal "C" "'" text).
  change ("" +:+ hex_of_chars text) with (hex_of_chars text).
  rewrite (to_bytes_hex_of_chars text w Htext). reflexivity.
Qed.

(** [EOF BYTE C'EOF'] *)
Lemma BYTE_C_writes_text_witness :
  SecondPass_elem (Some "0") ["01000"; "EOF"; "BYTE"; "C'EOF'"] world0
  = (Ret (Some "0", ["01000"; "EOF"; "BYTE"; "C'EOF'"; "454f46"]),
     World 0 ∅ [] "EOF").
Proof.
  apply (BYTE_C_writes_text "01000" "EOF" "EOF" "E" (Some "0") world0).
  - reflexivity.
  - discriminate.
  - reflexivity.
Defined.

(** BYTE X'digits', for at least two hexadecimal digits, writes one byte
    for each pair of digits, in order (a last digit alone is a byte of its
    own), and records the digits in the row. *)
Theorem BYTE_X_packs_digits (addr label digits : string) (c : ascii)
    (basevar : option string) (w : world) :
  Py.getitem label 0 = Some c -> c <> "."%char ->
  all_chars is_hex_digit digits = true ->
  (2 <= String.length digits)%nat ->
  exists out : string,
    SecondPass_elem basevar [addr; label; "BYTE"; "X'" +:+ digits +:+ "'"] w
    = (Ret (basevar, [addr; label; "BYTE"; "X'" +:+ digits +:+ "'"; digits]),
       World (LOCCTR w) (SYMTAB w) (stdout w) (target w +:+ out))
    /\ ords out = pair_values digits
    /\ String.length out = ((String.length digits + 1) / 2)%nat.
Proof.
  intros Hl Hc Hall Hlen. apply ascii_eqb_false in Hc.
  destruct (to_bytes_hex digits w Hall) as (out & Hout & Hords & Hbytes).
  exists out. repeat split; try assumption.
  change ("X'" +:+ digits +:+ "'")
    with (String "X" (String "'" (digits +:+ String "'" ""))).
  unfold SecondPass_elem. run. tests. cbv beta iota.
  rewrite Hl. run. rewrite Hc.
  change (Py.getitem (String "X" ?s) 0) with (Some "X"%char). run. tests.
  cbv beta iota.
  rewrite (slice_literal "X" "'" digits).
  assert (Hz : Py.zfill 2 digits = digits).
  { unfold Py.zfill, Py.len.
    destruct (Z.leb_spec 2 (Z.of_nat (String.length digits)));
      [reflexivity | lia]. }
  rewrite Hz. change ("" +:+ digits) with digits. rewrite Hout. reflexivity.
Qed.

(** [INPUT BYTE X'F1A'] : three digits give the two bytes F1 and 0A, where
    Pass 1 reserved (6 - 3) / 2 = 1. *)
Lemma BYTE_X_packs_digits_witness :
  exists out : string,
    SecondPass_elem (Some "0") ["01000"; "INPUT"; "BYTE"; "X'F1A'"] world0
    = (Ret (Some "0", ["01000"; "INPUT"; "BYTE"; "X'F1A'"; "F1A"]),
       World (LOCCTR world0) (SYMTAB world0) (stdout world0)
             (target world0 +:+ out))
    /\ ords out = [0xF1; 0x0A]
    /\ String.length out = 2%nat.
Proof.
  apply (BYTE_X_packs_digits "01000" "INPUT" "F1A" "I" (Some "0") world0).
  - reflexivity.
  - discriminate.
  - reflexivity.
  - simpl. lia.
Defined.

(** BYTE with an operand that starts neither with X nor with C (a bare
    number) stops the assembler with TypeError, before anything is written:
    the code calls [hex] on a string. *)
Theorem BYTE_numeric_TypeError (addr label operand : string) (c c3 : ascii)
    (basevar : option string) (w : world) :
  Py.getitem label 0 = Some c -> c <> "."%char ->
  Py.getitem operand 0 = Some c3 -> c3 <> "X"%char -> c3 <> "C"%char ->
  SecondPass_elem basevar [addr; label; "BYTE"; operand] w
  = (Raise Py.TypeError, w).
Proof.
  intros Hl Hc H3 HX HC. apply ascii_eqb_false in Hc, HX, HC.
  unfold SecondPass_elem. run. tests. cbv beta iota.
  rewrite Hl. run. rewrite Hc. rewrite H3. run. rewrite HX, HC. reflexivity.
Qed.

(** [FIVE BYTE 5], for which Pass 1 reserves one byte. *)
Lemma BYTE_numeric_TypeError_witness :
  SecondPass_elem (Some "0") ["01000"; "FIVE"; "BYTE"; "5"] world0
  = (Raise Py.TypeError, world0).
Proof.
  apply (BYTE_numeric_TypeError "01000" "FIVE" "5" "F" "5" (Some "0") world0);
    reflexivity || discriminate.
Defined.

(** ** Encoding Pass: format 1, and operations in no catalog *)

(** A format-1 operation is encoded as its catalog opcode and written as
    that single byte, whatever its operand column holds. *)
Theorem format1_one_byte (addr label code operand : string) (c : ascii)
    (basevar : option string) (w : world) :
  Py.getitem label 0 = Some c -> c <> "."%char ->
  Py.contains FORM1 code = true ->
  exists (opc out : string) (v : Z),
    Py.get FORM1 code = Some opc
    /\ Py.int_of 16 opc = Some v
    /\ SecondPass_elem basevar [addr; label; code; operand] w
       = (Ret (basevar, [addr; label; code; operand; opc]),
          World (LOCCTR w) (SYMTAB w) (stdout w) (target w +:+ out))
    /\ ords out = [v].
Proof.
  intros Hl Hc H1. apply ascii_eqb_false in Hc.
  apply contains_In in H1 as [opc H1]. each_entry H1;
    (eexists; eexists; eexists; split; [reflexivity |];
     split; [vm_compute; reflexivity |];
     split;
     [ unfold SecondPass_elem; run; tests; cbv beta iota;
       rewrite Hl; run; rewrite Hc; reflexivity
     | reflexivity ]).
Qed.

(** [FIX] is the byte C4. *)
Lemma format1_one_byte_witness :
  exists (opc out : string) (v : Z),
    Py.get FORM1 "FIX" = Some opc
    /\ Py.int_of 16 opc = Some v
    /\ SecondPass_elem (Some "0") ["01000"; "    "; "FIX"; ""] world0
       = (Ret (Some "0", ["01000"; "    "; "FIX"; ""; opc]),
          World (LOCCTR world0) (SYMTAB world0) (stdout world0)
                (target world0 +:+ out))
    /\ ords out = [v].
Proof.
  apply (format1_one_byte "01000" "    " "FIX" "" " " (Some "0") world0).
  - reflexivity.
  - discriminate.
  - reflexivity.
Defined.

Lemma is_directive_false (code : string) :
  is_directive code = false ->
  String.eqb code "RESB" = false /\ String.eqb code "RESW" = false
  /\ String.eqb code "START" = false /\ String.eqb code "END" = false
  /\ String.eqb code "BYTE" = false /\ String.eqb code "WORD" = false
  /\ String.eqb code "BASE" = false.
Proof.
  unfold is_directive. intros H.
  repeat (apply orb_false_elim in H as [H ?]). repeat split; assumption.
Qed.

(** An operation that is no directive and is in no catalog, with or without
    its first character, is reported on the console ("Error: Instruction not
    valid - " and the operation); the pass goes on: the row gets an empty
    encoding and the file is left as it was. *)
Theorem unknown_mnemonic_reported (addr label code operand : string)
    (c : ascii) (basevar : option string) (w : world) :
  Py.getitem label 0 = Some c -> c <> "."%char ->
  is_directive code = false ->
  Py.contains FORM1 code = false -> Py.contains FORM2 code = false ->
  Py.contains OPTAB code = false ->
  Py.contains OPTAB (Py.slice_from code 1) = false ->
  SecondPass_elem basevar [addr; label; code; operand] w
  = (Ret (basevar, [addr; label; code; operand; ""]),
     World (LOCCTR w) (SYMTAB w)
           (stdout w ++ ["Error: Instruction not valid - "; code])
           (target w)).
Proof.
  intros Hl Hc Hd H1 H2 H3 H4. apply ascii_eqb_false in Hc.
  destruct (is_directive_false code Hd) as (D1 & D2 & D3 & D4 & D5 & D6 & D7).
  unfold SecondPass_elem, FindForm. run. tests. cbv beta iota.
  rewrite D1, D2, Hl. run. rewrite Hc, D3, D4, D5, D6, D7, H1, H2, H3, H4.
  simpl. rewrite <- app_assoc. simpl. rewrite string_app_nil_r. reflexivity.
Qed.

(** A misspelt load. *)
Lemma unknown_mnemonic_reported_witness :
  SecondPass_elem (Some "0") ["01000"; "FIRST"; "LOAD"; "ALPHA"] world0
  = (Ret (Some "0", ["01000"; "FIRST"; "LOAD"; "ALPHA"; ""]),
     World 0 ∅ ["Error: Instruction not valid - "; "LOAD"] "").
Proof.
  apply (unknown_mnemonic_reported "01000" "FIRST" "LOAD" "ALPHA" "F"
           (Some "0") world0);
    reflexivity || discriminate.
Defined.

(** An operation that is not itself in the opcode catalog but is a catalog
    mnemonic behind one extra first character other than [+] is taken for a
    format-3 instruction and stops the assembler with ValueError (the text
    None, read as a hexadecimal opcode), before anything is printed or
    written. *)
Theorem misprefixed_mnemonic_ValueError (addr label code operand : string)
    (c o : ascii) (basevar : option string) (w : world) :
  Py.getitem label 0 = Some c -> c <> "."%char ->
  is_directive code = false ->
  Py.contains FORM1 code = false -> Py.contains FORM2 code = false ->
  Py.contains OPTAB code = false ->
  Py.contains OPTAB (Py.slice_from code 1) = true ->
  Py.getitem code 0 = Some o -> o <> "+"%char ->
  SecondPass_elem basevar [addr; label; code; operand] w
  = (Raise Py.ValueError, w).
Proof.
  intros Hl Hc Hd H1 H2 H3 H4 Ho Hplus.
  apply ascii_eqb_false in Hc, Hplus.
  destruct (is_directive_false code Hd) as (D1 & D2 & D3 & D4 & D5 & D6 & D7).
  assert (Hget : Py.get OPTAB code = None).
  { unfold Py.contains in H3. now destruct (Py.get OPTAB code). }
  unfold SecondPass_elem, FindForm. run. tests. cbv beta iota.
  rewrite D1, D2, Hl. run. rewrite Hc, D3, D4, D5, D6, D7, H1, H2, H3, H4.
  simpl orb. cbv iota. rewrite Ho. run. rewrite Hplus. run. known. cbv iota.
  unfold Format3. rewrite D3, D4, Hget. reflexivity.
Qed.

(** [@LDA], an indirection mark on the operation instead of the operand. *)
Lemma misprefixed_mnemonic_ValueError_witness :
  SecondPass_elem (Some "0") ["01000"; "FIRST"; "@LDA"; "ALPHA"] world0
  = (Raise Py.ValueError, world0).
Proof.
  apply (misprefixed_mnemonic_ValueError "01000" "FIRST" "@LDA" "ALPHA"
           "F" "@" (Some "0") world0);
    reflexivity || discriminate.
Defined.

(** ** Encoding Pass: the opcode byte and the flag nibble *)

(** The opcode byte keeps the six opcode bits of the catalog entry and
    carries the n,i bits in its two low bits: 1 for an immediate operand
    ([#]), 2 for an indirect one ([@]), 3 otherwise, and always 3 for RSUB.
    It is printed on two digits and the state is left as it was. *)
Theorem FindOpcode_bits (m code : string) (c : ascii) (r : string) (w : world) :
  Py.get OPTAB m = Some code ->
  exists (opc : string) (v oc : Z),
    FindOpcode (Some code) (String c r) w = (Ret opc, w)
    /\ String.length opc = 2%nat
    /\ Py.int_of 16 opc = Some v
    /\ Py.int_of 16 code = Some oc
    /\ Z.land v 252 = oc
    /\ Z.land v 3 = (if String.eqb m "RSUB" then 3 else ni_bits c).
Proof.
  intros H. apply get_In in H. unfold ni_bits.
  destruct (Ascii.eqb c "#") eqn:E1; destruct (Ascii.eqb c "@") eqn:E2;
    each_entry H;
    (eexists; eexists; eexists;
     split; [unfold FindOpcode, NIbits; run';
             change (Py.getitem (String c r) 0) with (Some c); run;
             rewrite ?E1, ?E2; vm_compute; reflexivity |];
     repeat split; vm_compute; reflexivity).
Qed.

(** [STA @BUFFER]: opcode 0C with n = 1, i = 0 is the byte 0E. *)
Lemma FindOpcode_bits_witness :
  exists (opc : string) (v oc : Z),
    FindOpcode (Some "0C") "@BUFFER" world0 = (Ret opc, world0)
    /\ String.length opc = 2%nat
    /\ Py.int_of 16 opc = Some v
    /\ Py.int_of 16 "0C" = Some oc
    /\ Z.land v 252 = oc
    /\ Z.land v 3 = 2.
Proof.
  apply (FindOpcode_bits "STA" "0C" "@" "BUFFER" world0). reflexivity.
Defined.

Lemma OPTAB_mnemonic (op code : string) :
  Py.get OPTAB op = Some code ->
  String.eqb op "START" = false /\ String.eqb op "END" = false
  /\ exists o, Py.getitem op 0 = Some o /\ Ascii.eqb o "+" = false.
Proof.
  intros H. apply get_In in H.
  each_entry H; repeat split; eexists; split; reflexivity.
Qed.

(** The flag nibble of a format-3 instruction whose operand, not indexed,
    names a label: 2 (p) when the displacement is between -2047 and 2048,
    else 4 (b). *)
Lemma XBPE_label (op code operand curraddr la : string) (l : ascii)
    (ca lv : Z) (w : world) :
  Py.get OPTAB op = Some code ->
  last_char operand = Some l -> l <> "X"%char ->
  SYMTAB w !! unmarked operand = Some la ->
  Py.int_of 16 curraddr = Some ca -> Py.int_of 16 la = Some lv ->
  XBPE op operand curraddr w
  = (Ret (if (-2047 <=? lv - (ca + 3)) && (lv - (ca + 3) <=? 2048)
          then "2" else "4"), w).
Proof.
  intros Hop Hl Hx Hsym Hca Hlv. apply ascii_eqb_false in Hx.
  destruct (OPTAB_mnemonic op code Hop) as (_ & _ & o & Ho & Hplus).
  unfold XBPE.
  destruct operand as [| c r]; [discriminate Hl |].
  change (String.eqb (String c r) "") with false. cbv iota.
  unfold last_char in Hl. run. rewrite Hl. run. rewrite Hx. run.
  rewrite Ho. run. rewrite Hplus.
  change (Py.getitem (String c r) 0) with (Some c) in *. run.
  unfold unmarked in Hsym.
  change (Py.getitem (String c r) 0) with (Some c) in Hsym. cbv iota in Hsym.
  rewrite Hsym.
  rewrite (out_of_PC_range_spec curraddr la ca lv w Hca Hlv).
  destruct (_ && _); destruct (_ || _)%bool; reflexivity.
Qed.

(** For a format-3 instruction whose operand names a label and is not
    indexed, the flag nibble sets exactly one of b and p, never x or e: p
    when the displacement (label address minus next instruction address) is
    between -2047 and 2048, b otherwise. *)
Theorem XBPE_b_or_p (op code operand curraddr la : string) (l : ascii)
    (ca lv : Z) (w : world) :
  Py.get OPTAB op = Some code ->
  last_char operand = Some l -> l <> "X"%char ->
  SYMTAB w !! unmarked operand = Some la ->
  Py.int_of 16 curraddr = Some ca -> Py.int_of 16 la = Some lv ->
  exists (nib : string) (v : Z),
    XBPE op operand curraddr w = (Ret nib, w)
    /\ Py.int_of 16 nib = Some v
    /\ Z.testbit v 1 = (-2047 <=? lv - (ca + 3)) && (lv - (ca + 3) <=? 2048)
    /\ Z.testbit v 2 = negb (Z.testbit v 1)
    /\ Z.testbit v 3 = false
    /\ Z.testbit v 0 = false.
Proof.
  intros Hop Hl Hx Hsym Hca Hlv.
  rewrite (XBPE_label op code operand curraddr la l ca lv w
             Hop Hl Hx Hsym Hca Hlv).
  destruct (_ && _); eexists; eexists; repeat split; reflexivity.
Qed.

(** Label B at 0x803 seen from address 0: displacement 2048, p is set. *)
Lemma XBPE_b_or_p_witness :
  exists (nib : string) (v : Z),
    XBPE "LDA" "B" "00000" world_AB = (Ret nib, world_AB)
    /\ Py.int_of 16 nib = Some v
    /\ Z.testbit v 1 = (-2047 <=? 2051 - (0 + 3)) && (2051 - (0 + 3) <=? 2048)
    /\ Z.testbit v 2 = negb (Z.testbit v 1)
    /\ Z.testbit v 3 = false
    /\ Z.testbit v 0 = false.
Proof.
  apply (XBPE_b_or_p "LDA" "00" "B" "00000" "00803" "B" 0 2051 world_AB).
  - reflexivity.
  - reflexivity.
  - discriminate.
  - reflexivity.
  - reflexivity.
  - reflexivity.
Defined.

(** ** Encoding Pass: format 3 *)

(** An immediate operand [#n] that names no label, with [0 <= n < 4096], is
    encoded as the opcode byte, the flag nibble 0 and n on three hexadecimal
    digits. *)
Theorem Format3_immediate_constant (op code digits curraddr : string)
    (l : ascii) (ca v : Z) (baseaddr : option string) (w : world) :
  Py.get OPTAB op = Some code -> op <> "RSUB" ->
  last_char (String "#" digits) = Some l -> l <> "X"%char ->
  SYMTAB w !! digits = None ->
  Py.int_of 10 digits = Some v -> 0 <= v < 4096 ->
  Py.int_of 16 curraddr = Some ca ->
  exists opc field : string,
    FindOpcode (Some code) (String "#" digits) w = (Ret opc, w)
    /\ Format3 op (String "#" digits) curraddr baseaddr w
       = (Ret ((opc +:+ "0") +:+ field), w)
    /\ String.length field = 3%nat
    /\ Py.int_of 16 field = Some v.
Proof.
  intros Hop Hrsub Hl Hx Hsym Hv Hpos Hca.
  apply ascii_eqb_false in Hx. apply eqb_false in Hrsub.
  destruct (OPTAB_mnemonic op code Hop) as (Hs & He & o & Ho & Hplus).
  destruct (FindOpcode_total op code (String "#" digits) w Hop
              ltac:(discriminate)) as [opc Hopc].
  destruct (hex_field 3 v ltac:(lia)) as (Hall & Hparse & Hne & Hlen).
  exists opc, (Py.zfill 3 (Py.slice_from (Py.hex v) 2)).
  assert (Hslice : Py.slice_from (String "#" digits) 1 = digits)
    by (apply (slice_from_drop 1); simpl; lia).
  assert (HX : XBPE op (String "#" digits) curraddr w = (Ret "0", w)).
  { unfold XBPE. change (String.eqb (String "#" digits) "") with false.
    cbv iota. unfold last_char in Hl. run. rewrite Hl. run. rewrite Hx. run.
    rewrite Ho. run. rewrite Hplus.
    change (Py.getitem (String "#" digits) 0) with (Some "#"%char). run. tests.
    cbv iota. rewrite Hslice, Hsym. reflexivity. }
  repeat split.
  - exact Hopc.
  - unfold Format3. rewrite Hs, He, Hop. cbn [str_opt].
    unfold bind at 1. rewrite Hopc. unfold bind at 1. rewrite HX.
    rewrite Hrsub. run. rewrite Hca.
    change (Py.getitem (String "#" digits) 0) with (Some "#"%char). run. tests.
    cbv iota. rewrite Hslice, Hsym, Hv. reflexivity.
  - apply Hlen; [simpl; lia | lia].
  - now apply int_of_digits.
Qed.

(** [LDA #3]: 01 0 003. *)
Lemma Format3_immediate_constant_witness :
  exists opc field : string,
    FindOpcode (Some "00") "#3" world0 = (Ret opc, world0)
    /\ Format3 "LDA" "#3" "01000" (Some "0") world0
       = (Ret ((opc +:+ "0") +:+ field), world0)
    /\ String.length field = 3%nat
    /\ Py.int_of 16 field = Some 3.
Proof.
  apply (Format3_immediate_constant "LDA" "00" "3" "01000" "3" 4096 3
           (Some "0") world0).
  - reflexivity.
  - discriminate.
  - reflexivity.
  - discriminate.
  - reflexivity.
  - reflexivity.
  - lia.
  - reflexivity.
Defined.

(** *** Reading digits *)

Lemma parse_digits_hex (s : string) : forall acc v,
  Py.parse_digits 16 s acc = Some v -> all_chars is_hex_digit s = true.
Proof.
  induction s as [| c r IH]; intros acc v H; [reflexivity |].
  simpl in H. simpl. unfold is_hex_digit at 1.
  destruct (Py.digit_value c) as [d |]; [| discriminate].
  destruct (d <? 16); [| discriminate]. exact (IH _ _ H).
Qed.

Lemma parse_digits_shift (s : string) : forall a b v,
  Py.parse_digits 16 s a = Some v ->
  Py.parse_digits 16 s (a + b)
  = Some (v + b * 16 ^ Z.of_nat (String.length s)).
Proof.
  induction s as [| c r IH]; intros a b v H.
  - injection H as <-. simpl. f_equal. lia.
  - simpl in H. cbn [Py.parse_digits String.length].
    destruct (Py.digit_value c) as [d |]; [| discriminate].
    destruct (d <? 16); [| discriminate].
    replace ((a + b) * 16 + d) with ((a * 16 + d) + b * 16) by lia.
    rewrite (IH _ (b * 16) _ H). f_equal.
    rewrite Nat2Z.inj_succ, Z.pow_succ_r by lia. lia.
Qed.

Lemma parse_digits_app (s t : string) : forall acc a,
  Py.parse_digits 16 s acc = Some a ->
  Py.parse_digits 16 (s +:+ t) acc = Py.parse_digits 16 t a.
Proof.
  induction s as [| c r IH]; intros acc a H.
  - injection H as <-. reflexivity.
  - change (String c r +:+ t) with (String c (r +:+ t)).
    simpl in H. cbn [Py.parse_digits].
    destruct (Py.digit_value c) as [d |]; [| discriminate].
    destruct (d <? 16); [| discriminate]. exact (IH _ _ H).
Qed.

(** The field [TwoComp] returns for a negative displacement of 12 bits:
    three hexadecimal digits that read as the displacement plus 2^12. *)
Lemma TwoComp_field (d : Z) (w : world) :
  -2048 <= d < 0 ->
  exists h : string,
    TwoComp d w = (Ret h, w)
    /\ String.length h = 3%nat
    /\ Py.parse_digits 16 h 0 = Some (d + 4096).
Proof.
  intros Hd.
  pose proof TwoComp_agrees_all as Hall.
  rewrite forallb_forall in Hall.
  specialize (Hall (Z.to_nat (- d - 1))).
  replace (- Z.of_nat (Z.to_nat (- d - 1)) - 1) with d in Hall by lia.
  assert (Hin : In (Z.to_nat (- d - 1)) (seq 0 2048)) by (apply in_seq; lia).
  specialize (Hall Hin). unfold TwoComp_agrees in Hall.
  rewrite (TwoComp_pure d w).
  destruct (TwoComp d world0) as [[h | e] w0]; [| discriminate].
  apply andb_prop in Hall as [Hall Hdec]. apply andb_prop in Hall as [Heq Hlen].
  apply String.eqb_eq in Heq. apply Nat.eqb_eq in Hlen.
  exists h. split; [reflexivity |]. split; [exact Hlen |].
  assert (Hn : 0 <= Z.lxor (Z.abs d) 4095 + 1).
  { assert (0 <= Z.lxor (Z.abs d) 4095) by (apply Z.lxor_nonneg; lia). lia. }
  destruct (hex_field 3 _ Hn) as (_ & Hparse & Hne & _).
  change (Py.zfill (Z.of_nat 3)
            (Py.slice_from (Py.hex (Z.lxor (Z.abs d) 4095 + 1)) 2))
    with (invert12_plus1 d) in Hparse, Hne.
  rewrite <- Heq in Hparse, Hne.
  rewrite (int_of_digits h _ Hne Hparse) in Hdec.
  apply Z.eqb_eq in Hdec. rewrite Hparse. f_equal.
  unfold decode12 in Hdec.
  destruct (Z.ltb_spec (Z.lxor (Z.abs d) 4095 + 1) 2048); lia.
Qed.

(** The catalog's mnemonics: none is a directive, and every opcode is a
    multiple of four below 256. *)
Lemma OPTAB_opcode (m code : string) :
  Py.get OPTAB m = Some code ->
  is_directive m = false
  /\ exists oc, Py.int_of 16 code = Some oc
                /\ 0 <= oc <= 252 /\ Z.land oc 3 = 0
                /\ (String.eqb m "RSUB" = false -> String.eqb code "4C" = false).
Proof.
  intros H. apply get_In in H.
  each_entry H; (split; [reflexivity |]); eexists;
    (split; [reflexivity |]); repeat split; try discriminate; intros H;
    exact H || reflexivity.
Qed.

(** The opcode byte in simple addressing: the catalog opcode plus 3, on two
    hexadecimal digits. *)
Lemma FindOpcode_simple (m code : string) (c : ascii) (r : string) (oc : Z)
    (w : world) :
  Py.get OPTAB m = Some code -> String.eqb m "RSUB" = false ->
  Py.int_of 16 code = Some oc ->
  Ascii.eqb c "#" = false -> Ascii.eqb c "@" = false ->
  exists opc : string,
    FindOpcode (Some code) (String c r) w = (Ret opc, w)
    /\ String.length opc = 2%nat
    /\ Py.parse_digits 16 opc 0 = Some (oc + 3).
Proof.
  intros Hop Hrsub Hoc E1 E2.
  destruct (OPTAB_opcode m code Hop) as (_ & oc' & Hoc' & Hrange & _ & H4C).
  rewrite Hoc in Hoc'. injection Hoc' as <-. specialize (H4C Hrsub).
  destruct (hex_field 2 (oc + 3) ltac:(lia)) as (_ & Hparse & _ & Hlen).
  exists (Py.zfill 2 (Py.slice_from (Py.hex (oc + 3)) 2)).
  split; [| split; [apply Hlen; [simpl; lia | lia] | exact Hparse]].
  unfold FindOpcode, NIbits. run. rewrite Hoc. cbn [str_opt]. rewrite H4C.
  change (Py.getitem (String c r) 0) with (Some c). cbv beta iota.
  rewrite E1, E2. reflexivity.
Qed.

Lemma mod12 (d : Z) :
  -2048 <= d < 2048 -> d mod 4096 = if d <? 0 then d + 4096 else d.
Proof.
  intros H. destruct (Z.ltb_spec d 0).
  - symmetry. apply (Z.mod_unique d 4096 (-1)); lia.
  - apply Z.mod_small. lia.
Qed.

(** Simple addressing of a label within reach of the program counter: the
    opcode byte, the nibble 2, and the displacement modulo 2^12 on three
    digits. *)
Lemma Format3_simple_PC (op code operand curraddr la : string)
    (c0 l : ascii) (ca lv oc : Z) (baseaddr : option string) (w : world) :
  Py.get OPTAB op = Some code -> op <> "RSUB" ->
  Py.int_of 16 code = Some oc ->
  Py.getitem operand 0 = Some c0 -> c0 <> "#"%char -> c0 <> "@"%char ->
  last_char operand = Some l -> l <> "X"%char ->
  SYMTAB w !! operand = Some la ->
  Py.int_of 16 curraddr = Some ca -> Py.int_of 16 la = Some lv ->
  -2047 <= lv - (ca + 3) <= 2047 -> lv - (ca + 3) <> 0 ->
  exists opc field : string,
    FindOpcode (Some code) operand w = (Ret opc, w)
    /\ Format3 op operand curraddr baseaddr w
       = (Ret ((opc +:+ "2") +:+ field), w)
    /\ String.length opc = 2%nat
    /\ Py.parse_digits 16 opc 0 = Some (oc + 3)
    /\ String.length field = 3%nat
    /\ Py.parse_digits 16 field 0 = Some ((lv - (ca + 3)) mod 4096).
Proof.
  intros Hop Hrsub Hoc H0 Hhash Hat Hl Hx Hsym Hca Hlv Hrange Hnz.
  destruct (OPTAB_mnemonic op code Hop) as (Hs & He & o & Ho & Hplus).
  apply ascii_eqb_false in Hhash, Hat, Hx. apply eqb_false in Hrsub.
  assert (Hun : unmarked operand = operand).
  { unfold unmarked. now rewrite H0, Hhash, Hat. }
  assert (HX : XBPE op operand curraddr w = (Ret "2", w)).
  { rewrite (XBPE_label op code operand curraddr la l ca lv w Hop Hl);
      try assumption; [| now apply Ascii.eqb_neq | now rewrite Hun].
    destruct (Z.leb_spec (-2047) (lv - (ca + 3))); [| lia].
    destruct (Z.leb_spec (lv - (ca + 3)) 2048); [reflexivity | lia]. }
  assert (Hfar : out_of_PC_range curraddr (Some la) w = (Ret false, w)).
  { rewrite (out_of_PC_range_spec curraddr la ca lv w Hca Hlv).
    destruct (Z.leb_spec (-2047) (lv - (ca + 3))); [| lia].
    destruct (Z.leb_spec (lv - (ca + 3)) 2048); [reflexivity | lia]. }
  destruct operand as [| c0' r]; [discriminate H0 |].
  injection H0 as ->.
  destruct (FindOpcode_simple op code c0 r oc w Hop Hrsub Hoc Hhash Hat)
    as (opc & Hopc & Hlen2 & Hparse2).
  unfold last_char in Hl.
  assert (HF : forall field,
             (if lv >? ca + 3
              then ret (A := string)
                     (Py.zfill 3 (Py.slice_from (Py.hex (lv - (ca + 3))) 2))
              else TwoComp (lv - (ca + 3))) w = (Ret field, w) ->
             Format3 op (String c0 r) curraddr baseaddr w
             = (Ret ((opc +:+ "2") +:+ field), w)).
  { intros field Hfield.
    unfold Format3. rewrite Hs, He, Hop. cbn [str_opt].
    unfold bind at 1. rewrite Hopc. unfold bind at 1. rewrite HX.
    rewrite Hrsub. run. rewrite Hca.
    change (Py.getitem (String c0 r) 0) with (Some c0). cbv beta iota.
    rewrite Hhash, Hat.
    tests. cbv beta iota. rewrite Hl. run. rewrite Hx. cbv beta iota.
    rewrite Hsym, Hfar. cbn [str_opt]. rewrite Hlv.
    revert Hfield. destruct (lv >? ca + 3); intros Hfield.
    - injection Hfield as <-. reflexivity.
    - rewrite Hfield. reflexivity. }
  rewrite (mod12 (lv - (ca + 3))) by lia.
  destruct (Z.gtb_spec lv (ca + 3)) as [Hgt | Hle].
  - destruct (hex_field 3 (lv - (ca + 3)) ltac:(lia))
      as (_ & Hparse & _ & Hlen).
    exists opc, (Py.zfill 3 (Py.slice_from (Py.hex (lv - (ca + 3))) 2)).
    destruct (Z.ltb_spec (lv - (ca + 3)) 0); [lia |].
    repeat split; try assumption.
    + apply HF. reflexivity.
    + apply Hlen; [simpl; lia | lia].
  - destruct (TwoComp_field (lv - (ca + 3)) w ltac:(lia))
      as (h & Hh & Hlen & Hparse).
    exists opc, h.
    destruct (Z.ltb_spec (lv - (ca + 3)) 0); [| lia].
    repeat split; try assumption. apply HF. exact Hh.
Qed.

(** A format-3 instruction in simple addressing (operand not marked with [#]
    or [@], not indexed) whose operand is a label at a displacement other
    than 0 between -2047 and 2047 from the next instruction is encoded as
    the opcode byte, the flag nibble 2 (p) and a three-digit field that is
    the displacement in 12-bit two's complement. *)
Theorem Format3_PC_relative (op code operand curraddr la : string)
    (c0 l : ascii) (ca lv : Z) (baseaddr : option string) (w : world) :
  Py.get OPTAB op = Some code -> op <> "RSUB" ->
  Py.getitem operand 0 = Some c0 -> c0 <> "#"%char -> c0 <> "@"%char ->
  last_char operand = Some l -> l <> "X"%char ->
  SYMTAB w !! operand = Some la ->
  Py.int_of 16 curraddr = Some ca -> Py.int_of 16 la = Some lv ->
  -2047 <= lv - (ca + 3) <= 2047 -> lv - (ca + 3) <> 0 ->
  exists (opc field : string) (v : Z),
    FindOpcode (Some code) operand w = (Ret opc, w)
    /\ Format3 op operand curraddr baseaddr w
       = (Ret ((opc +:+ "2") +:+ field), w)
    /\ String.length field = 3%nat
    /\ Py.int_of 16 field = Some v
    /\ decode12 v = lv - (ca + 3).
Proof.
  intros Hop Hrsub H0 Hhash Hat Hl Hx Hsym Hca Hlv Hrange Hnz.
  destruct (OPTAB_opcode op code Hop) as (_ & oc & Hoc & _).
  destruct (Format3_simple_PC op code operand curraddr la c0 l ca lv oc
              baseaddr w Hop Hrsub Hoc H0 Hhash Hat Hl Hx Hsym Hca Hlv
              Hrange Hnz)
    as (opc & field & Hopc & HF & _ & _ & Hlen & Hparse).
  exists opc, field, ((lv - (ca + 3)) mod 4096). repeat split; try assumption.
  - apply int_of_digits; [| exact Hparse]. intros ->. discriminate Hlen.
  - rewrite mod12 by lia. unfold decode12.
    destruct (Z.ltb_spec (lv - (ca + 3)) 0).
    + destruct (Z.ltb_spec (lv - (ca + 3) + 4096) 2048); lia.
    + destruct (Z.ltb_spec (lv - (ca + 3)) 2048); lia.
Qed.

(** [LDA A] at 0x900, with A at 0x802: a backward reference. *)
Lemma Format3_PC_relative_witness :
  exists (opc field : string) (v : Z),
    FindOpcode (Some "00") "A" world_AB = (Ret opc, world_AB)
    /\ Format3 "LDA" "A" "00900" (Some "0") world_AB
       = (Ret ((opc +:+ "2") +:+ field), world_AB)
    /\ String.length field = 3%nat
    /\ Py.int_of 16 field = Some v
    /\ decode12 v = 2050 - (2304 + 3).
Proof.
  apply (Format3_PC_relative "LDA" "00" "A" "00900" "00802" "A" "A"
           2304 2050 (Some "0") world_AB).
  - reflexivity.
  - discriminate.
  - reflexivity.
  - discriminate.
  - discriminate.
  - reflexivity.
  - discriminate.
  - reflexivity.
  - reflexivity.
  - reflexivity.
  - lia.
  - lia.
Defined.

(** The record loop on such an instruction writes three bytes: the 24-bit
    word made of the catalog opcode with n = i = 1, the flags x b p e = 0010
    and the displacement modulo 2^12. *)
Theorem format3_instruction_word (addr label op code operand la : string)
    (c c0 l : ascii) (ca lv : Z) (basevar : option string) (w : world) :
  Py.getitem label 0 = Some c -> c <> "."%char ->
  Py.get OPTAB op = Some code -> op <> "RSUB" ->
  Py.contains FORM1 op = false -> Py.contains FORM2 op = false ->
  Py.getitem operand 0 = Some c0 -> c0 <> "#"%char -> c0 <> "@"%char ->
  last_char operand = Some l -> l <> "X"%char ->
  SYMTAB w !! operand = Some la ->
  Py.int_of 16 addr = Some ca -> Py.int_of 16 la = Some lv ->
  -2047 <= lv - (ca + 3) <= 2047 -> lv - (ca + 3) <> 0 ->
  exists (instr out : string) (oc : Z),
    SecondPass_elem basevar [addr; label; op; operand] w
    = (Ret (basevar, [addr; label; op; operand; instr]),
       World (LOCCTR w) (SYMTAB w) (stdout w) (target w +:+ out))
    /\ Py.int_of 16 code = Some oc
    /\ String.length out = 3%nat
    /\ be_value (ords out)
       = (oc + 3) * 65536 + 2 * 4096 + (lv - (ca + 3)) mod 4096.
Proof.
  intros Hl Hc Hop Hrsub HF1 HF2 H0 Hhash Hat Hlast Hx Hsym Hca Hlv Hrange Hnz.
  apply ascii_eqb_false in Hc.
  destruct (OPTAB_opcode op code Hop) as (Hd & oc & Hoc & _).
  destruct (is_directive_false op Hd) as (D1 & D2 & D3 & D4 & D5 & D6 & D7).
  destruct (OPTAB_mnemonic op code Hop) as (_ & _ & o & Ho & Hplus).
  assert (Hin : Py.contains OPTAB op = true)
    by (unfold Py.contains; now rewrite Hop).
  destruct (Format3_simple_PC op code operand addr la c0 l ca lv oc
              basevar w Hop Hrsub Hoc H0 Hhash Hat Hlast Hx Hsym Hca Hlv
              Hrange Hnz)
    as (opc & field & _ & HF & Hlen2 & Hp2 & Hlen3 & Hp3).
  set (d := (lv - (ca + 3)) mod 4096) in *.
  set (s := (opc +:+ "2") +:+ field) in *.
  assert (Hps : Py.parse_digits 16 s 0
                = Some ((oc + 3) * 65536 + 2 * 4096 + d)).
  { unfold s.
    rewrite (parse_digits_app (opc +:+ "2") field 0 ((oc + 3) * 16 + 2)).
    - pose proof (parse_digits_shift field 0 ((oc + 3) * 16 + 2) _ Hp3) as H.
      rewrite Z.add_0_l in H. rewrite H, Hlen3. f_equal.
      change (16 ^ Z.of_nat 3) with 4096. lia.
    - rewrite (parse_digits_app opc "2" 0 (oc + 3) Hp2). reflexivity. }
  assert (Hall : all_chars is_hex_digit s = true)
    by exact (parse_digits_hex s _ _ Hps).
  assert (Hlen : String.length s = 6%nat).
  { unfold s. rewrite !string_length_app, Hlen2, Hlen3. reflexivity. }
  destruct (to_bytes_hex s w Hall) as (out & Hout & Hords & Hbytes).
  exists s, out, oc. repeat split.
  - unfold SecondPass_elem, FindForm. run. tests. cbv beta iota.
    rewrite D1, D2, Hl. run. rewrite Hc, D3, D4, D5, D6, D7, HF1, HF2, Hin.
    rewrite orb_true_l. rewrite Ho. run. rewrite Hplus. run. known.
    cbv beta iota. rewrite HF. change ("" +:+ s) with s. rewrite Hout.
    reflexivity.
  - exact Hoc.
  - rewrite Hbytes, Hlen. reflexivity.
  - unfold be_value. rewrite Hords.
    assert (Heven : Nat.even (String.length s) = true) by now rewrite Hlen.
    pose proof (pair_values_parse s Heven Hall 0) as H.
    rewrite Hps in H. now injection H.
Qed.

(** [STA A] at 0x900, with A at 0x802: displacement -257, the word
    0F 2E FF. *)
Lemma format3_instruction_word_witness :
  exists (instr out : string) (oc : Z),
    SecondPass_elem (Some "0") ["00900"; "    "; "STA"; "A"] world_AB
    = (Ret (Some "0", ["00900"; "    "; "STA"; "A"; instr]),
       World (LOCCTR world_AB) (SYMTAB world_AB) (stdout world_AB)
             (target world_AB +:+ out))
    /\ Py.int_of 16 "0C" = Some oc
    /\ String.length out = 3%nat
    /\ be_value (ords out)
       = (oc + 3) * 65536 + 2 * 4096 + (2050 - (2304 + 3)) mod 4096.
Proof.
  apply (format3_instruction_word "00900" "    " "STA" "0C" "A" "00802"
           " " "A" "A" 2304 2050 (Some "0") world_AB).
  - reflexivity.
  - discriminate.
  - reflexivity.
  - discriminate.
  - reflexivity.
  - reflexivity.
  - reflexivity.
  - discriminate.
  - discriminate.
  - reflexivity.
  - discriminate.
  - reflexivity.
  - reflexivity.
  - reflexivity.
  - lia.
  - lia.
Defined.

(** ** Encoding Pass: format 4 *)

(** An extended instruction with an immediate operand [#n] that names no
    label, with [0 <= n < 2^20], is encoded as the opcode byte, the flag
    nibble 1 (e) and n on five hexadecimal digits. *)
Theorem Format4_immediate_constant (m code digits curraddr : string)
    (l : ascii) (v : Z) (w : world) :
  Py.get OPTAB m = Some code ->
  last_char (String "#" digits) = Some l -> l <> "X"%char ->
  SYMTAB w !! digits = None ->
  Py.int_of 10 digits = Some v -> 0 <= v < 1048576 ->
  exists opc field : string,
    FindOpcode (Some code) (String "#" digits) w = (Ret opc, w)
    /\ Format4 (String "+" m) (String "#" digits) curraddr w
       = (Ret ((opc +:+ "1") +:+ field), w)
    /\ String.length field = 5%nat
    /\ Py.int_of 16 field = Some v.
Proof.
  intros Hop Hl Hx Hsym Hv Hpos. apply ascii_eqb_false in Hx.
  destruct (FindOpcode_total m code (String "#" digits) w Hop
              ltac:(discriminate)) as [opc Hopc].
  destruct (hex_field 5 v ltac:(lia)) as (Hall & Hparse & Hne & Hlen).
  exists opc, (Py.zfill 5 (Py.slice_from (Py.hex v) 2)).
  assert (Hslice : Py.slice_from (String "#" digits) 1 = digits)
    by (apply (slice_from_drop 1); simpl; lia).
  assert (Hm : Py.slice_from (String "+" m) 1 = m)
    by (apply (slice_from_drop 1); simpl; lia).
  assert (HX : XBPE (String "+" m) (String "#" digits) curraddr w
               = (Ret "1", w)).
  { unfold XBPE. change (String.eqb (String "#" digits) "") with false.
    cbv iota. unfold last_char in Hl. run. rewrite Hl. run. rewrite Hx. run.
    change (Py.getitem (String "+" m) 0) with (Some "+"%char). run. tests.
    reflexivity. }
  repeat split.
  - exact Hopc.
  - unfold Format4. cbv zeta. rewrite Hm, Hop.
    unfold bind at 1. rewrite Hopc. unfold bind at 1. rewrite HX.
    change (String.eqb (String "+" m) "RSUB") with false. run.
    change (Py.getitem (String "#" digits) 0) with (Some "#"%char). run. tests.
    cbv iota. rewrite Hslice, Hsym, Hv. reflexivity.
  - apply Hlen; [simpl; lia | lia].
  - now apply int_of_digits.
Qed.

(** [+LDT #4096]: 75 1 01000. *)
Lemma Format4_immediate_constant_witness :
  exists opc field : string,
    FindOpcode (Some "74") "#4096" world0 = (Ret opc, world0)
    /\ Format4 "+LDT" "#4096" "01000" world0
       = (Ret ((opc +:+ "1") +:+ field), world0)
    /\ String.length field = 5%nat
    /\ Py.int_of 16 field = Some 4096.
Proof.
  apply (Format4_immediate_constant "LDT" "74" "4096" "01000" "6" 4096
           world0).
  - reflexivity.
  - reflexivity.
  - discriminate.
  - reflexivity.
  - reflexivity.
  - lia.
Defined.

(** The record loop on an extended instruction in simple addressing, not
    indexed, whose operand is a label entered in the table at location [lv]:
    four bytes are written, the 32-bit word made of the catalog opcode with
    n = i = 1, the flags x b p e = 0001 and the 20-bit address [lv]. *)
Theorem format4_instruction_word (addr label m code operand : string)
    (c c0 l : ascii) (lv : Z) (basevar : option string) (w : world) :
  Py.getitem label 0 = Some c -> c <> "."%char ->
  Py.get OPTAB m = Some code -> m <> "RSUB" ->
  Py.getitem operand 0 = Some c0 -> c0 <> "#"%char -> c0 <> "@"%char ->
  last_char operand = Some l -> l <> "X"%char ->
  0 <= lv < 1048576 ->
  SYMTAB w !! operand = Some (address_of lv) ->
  exists (instr out : string) (oc : Z),
    SecondPass_elem basevar [addr; label; String "+" m; operand] w
    = (Ret (basevar, [addr; label; String "+" m; operand; instr]),
       World (LOCCTR w) (SYMTAB w) (stdout w) (target w +:+ out))
    /\ Py.int_of 16 code = Some oc
    /\ String.length out = 4%nat
    /\ be_value (ords out) = (oc + 3) * 16777216 + 1048576 + lv.
Proof.
  intros Hl Hc Hop Hrsub H0 Hhash Hat Hlast Hx Hrange Hsym.
  apply ascii_eqb_false in Hc, Hhash, Hat, Hx. apply eqb_false in Hrsub.
  destruct (OPTAB_opcode m code Hop) as (_ & oc & Hoc & _).
  assert (Hin : Py.contains OPTAB m = true)
    by (unfold Py.contains; now rewrite Hop).
  assert (Hm : Py.slice_from (String "+" m) 1 = m)
    by (apply (slice_from_drop 1); simpl; lia).
  destruct operand as [| c0' r]; [discriminate H0 |]. injection H0 as ->.
  destruct (FindOpcode_simple m code c0 r oc w Hop Hrsub Hoc Hhash Hat)
    as (opc & Hopc & Hlen2 & Hp2).
  destruct (hex_field 5 lv ltac:(lia)) as (_ & Hp5 & _ & Hlen5).
  specialize (Hlen5 ltac:(simpl; lia) ltac:(lia)).
  change (Py.zfill (Z.of_nat 5) (Py.slice_from (Py.hex lv) 2))
    with (address_of lv) in Hp5, Hlen5.
  unfold last_char in Hlast.
  assert (HX : XBPE (String "+" m) (String c0 r) addr w = (Ret "1", w)).
  { unfold XBPE. change (String.eqb (String c0 r) "") with false.
    cbv iota. run. rewrite Hlast. run. rewrite Hx. run.
    change (Py.getitem (String "+" m) 0) with (Some "+"%char). run. tests.
    reflexivity. }
  set (s := (opc +:+ "1") +:+ address_of lv) in *.
  assert (HF : Format4 (String "+" m) (String c0 r) addr w = (Ret s, w)).
  { unfold Format4. cbv zeta. rewrite Hm, Hop.
    unfold bind at 1. rewrite Hopc. unfold bind at 1. rewrite HX.
    change (String.eqb (String "+" m) "RSUB") with false. run.
    change (Py.getitem (String c0 r) 0) with (Some c0). cbv beta iota.
    rewrite Hhash, Hat. tests. cbv beta iota. rewrite Hlast. run.
    rewrite Hx. cbv beta iota. rewrite Hsym. reflexivity. }
  assert (Hps : Py.parse_digits 16 s 0
                = Some ((oc + 3) * 16777216 + 1048576 + lv)).
  { unfold s.
    rewrite (parse_digits_app (opc +:+ "1") (address_of lv) 0
               ((oc + 3) * 16 + 1)).
    - pose proof (parse_digits_shift (address_of lv) 0 ((oc + 3) * 16 + 1)
                    _ Hp5) as H.
      rewrite Z.add_0_l in H. rewrite H, Hlen5. f_equal.
      change (16 ^ Z.of_nat 5) with 1048576. lia.
    - rewrite (parse_digits_app opc "1" 0 (oc + 3) Hp2). reflexivity. }
  assert (Hall : all_chars is_hex_digit s = true)
    by exact (parse_digits_hex s _ _ Hps).
  assert (Hlen : String.length s = 8%nat).
  { unfold s. rewrite !string_length_app, Hlen2, Hlen5. reflexivity. }
  destruct (to_bytes_hex s w Hall) as (out & Hout & Hords & Hbytes).
  exists s, out, oc. repeat split.
  - unfold SecondPass_elem, FindForm. run. tests. cbv beta iota.
    rewrite Hl. run. rewrite Hc. tests. cbv beta iota.
    change (Py.contains FORM1 (String "+" m)) with false.
    change (Py.contains FORM2 (String "+" m)) with false.
    change (Py.contains OPTAB (String "+" m)) with false.
    cbv beta iota. rewrite Hm, Hin. rewrite orb_true_r.
    change (Py.getitem (String "+" m) 0) with (Some "+"%char). run. tests.
    known. cbv beta iota. rewrite HF. change ("" +:+ s) with s.
    rewrite Hout. reflexivity.
  - exact Hoc.
  - rewrite Hbytes, Hlen. reflexivity.
  - unfold be_value. rewrite Hords.
    assert (Heven : Nat.even (String.length s) = true) by now rewrite Hlen.
    pose proof (pair_values_parse s Heven Hall 0) as H.
    rewrite Hps in H. now injection H.
Qed.

(** [+JSUB B] with B at 0x803: the word 4B 10 08 03. *)
Lemma format4_instruction_word_witness :
  exists (instr out : string) (oc : Z),
    SecondPass_elem (Some "0") ["01000"; "    "; "+JSUB"; "B"] world_AB
    = (Ret (Some "0", ["01000"; "    "; "+JSUB"; "B"; instr]),
       World (LOCCTR world_AB) (SYMTAB world_AB) (stdout world_AB)
             (target world_AB +:+ out))
    /\ Py.int_of 16 "48" = Some oc
    /\ String.length out = 4%nat
    /\ be_value (ords out) = (oc + 3) * 16777216 + 1048576 + 2051.
Proof.
  apply (format4_instruction_word "01000" "    " "JSUB" "48" "B"
           " " "B" "B" 2051 (Some "0") world_AB).
  - reflexivity.
  - discriminate.
  - reflexivity.
  - discriminate.
  - reflexivity.
  - discriminate.
  - discriminate.
  - reflexivity.
  - discriminate.
  - lia.
  - reflexivity.
Defined.

(** ** Encoding Pass: format 2 *)

Lemma Format2_registers (op oc r1 c1 r2 c2 : string) (w : world) :
  Py.get FORM2 op = Some oc ->
  Py.get REGS r1 = Some c1 -> Py.get REGS r2 = Some c2 ->
  Format2 op (r1 +:+ "," +:+ r2) w = (Ret ((oc +:+ c1) +:+ c2), w).
Proof.
  intros Hop H1 H2. apply get_In in H1, H2.
  each_entry H1; each_entry H2; unfold Format2; rewrite Hop; reflexivity.
Qed.

Lemma FORM2_codes (op oc : string) :
  Py.get FORM2 op = Some oc ->
  is_directive op = false /\ Py.contains FORM1 op = false
  /\ exists (a b : ascii) (v : Z),
       oc = String a (String b "") /\ Py.int_of 16 oc = Some v
       /\ is_hex_digit a = true /\ is_hex_digit b = true
       /\ pair_values oc = [v].
Proof.
  intros H. apply get_In in H.
  each_entry H; repeat split; do 3 eexists; repeat split.
Qed.

Lemma REGS_codes (r c : string) :
  Py.get REGS r = Some c ->
  exists (d : ascii) (n : Z),
    c = String d "" /\ Py.int_of 10 c = Some n
    /\ is_hex_digit d = true /\ Py.digit_value d = Some n.
Proof.
  intros H. apply get_In in H.
  each_entry H; do 2 eexists; repeat split.
Qed.

(** A format-2 operation on two registers [r1,r2] is written as two bytes:
    the catalog opcode, then the two register numbers, one in each half of
    the second byte. *)
Theorem format2_two_bytes (addr label op oc r1 c1 r2 c2 : string)
    (c : ascii) (basevar : option string) (w : world) :
  Py.getitem label 0 = Some c -> c <> "."%char ->
  Py.get FORM2 op = Some oc ->
  Py.get REGS r1 = Some c1 -> Py.get REGS r2 = Some c2 ->
  exists (out : string) (v n1 n2 : Z),
    SecondPass_elem basevar [addr; label; op; r1 +:+ "," +:+ r2] w
    = (Ret (basevar,
            [addr; label; op; r1 +:+ "," +:+ r2; (oc +:+ c1) +:+ c2]),
       World (LOCCTR w) (SYMTAB w) (stdout w) (target w +:+ out))
    /\ Py.int_of 16 oc = Some v
    /\ Py.int_of 10 c1 = Some n1 /\ Py.int_of 10 c2 = Some n2
    /\ ords out = [v; 16 * n1 + n2].
Proof.
  intros Hl Hc Hop H1 H2. apply ascii_eqb_false in Hc.
  destruct (FORM2_codes op oc Hop)
    as (Hd & HF1 & a & b & v & -> & Hv & Ha & Hb & Hpv).
  destruct (is_directive_false op Hd) as (D1 & D2 & D3 & D4 & D5 & D6 & D7).
  destruct (REGS_codes r1 c1 H1) as (d1 & n1 & -> & Hn1 & Hd1 & Hv1).
  destruct (REGS_codes r2 c2 H2) as (d2 & n2 & -> & Hn2 & Hd2 & Hv2).
  assert (HF2 : Py.contains FORM2 op = true)
    by (unfold Py.contains; now rewrite Hop).
  change ((String a (String b "") +:+ String d1 "") +:+ String d2 "")
    with (String a (String b (String d1 (String d2 "")))).
  assert (Hall : all_chars is_hex_digit
                   (String a (String b (String d1 (String d2 "")))) = true)
    by (simpl; now rewrite Ha, Hb, Hd1, Hd2).
  destruct (to_bytes_hex _ w Hall) as (out & Hout & Hords & _).
  exists out, v, n1, n2. repeat split; try assumption.
  - unfold SecondPass_elem. run. tests. cbv beta iota.
    rewrite D1, D2, Hl. run. rewrite Hc, D3, D4, D5, D6, D7, HF1, HF2.
    rewrite (Format2_registers op _ r1 _ r2 _ w Hop H1 H2).
    change ("" +:+ (String a (String b "") +:+ String d1 "") +:+ String d2 "")
      with (String a (String b (String d1 (String d2 "")))).
    rewrite Hout. reflexivity.
  - rewrite Hords. change (String a (String b (String d1 (String d2 ""))))
      with (String a (String b "") +:+ String d1 (String d2 "")) in *.
    simpl pair_values in *. rewrite Hv1, Hv2. simpl default.
    injection Hpv as <-. reflexivity.
Qed.

(** [COMPR A,S] is the bytes A0 04. *)
Lemma format2_two_bytes_witness :
  exists (out : string) (v n1 n2 : Z),
    SecondPass_elem (Some "0") ["01000"; "    "; "COMPR"; "A,S"] world0
    = (Ret (Some "0", ["01000"; "    "; "COMPR"; "A,S"; "A004"]),
       World (LOCCTR world0) (SYMTAB world0) (stdout world0)
             (target world0 +:+ out))
    /\ Py.int_of 16 "A0" = Some v
    /\ Py.int_of 10 "0" = Some n1 /\ Py.int_of 10 "4" = Some n2
    /\ ords out = [v; 16 * n1 + n2].
Proof.
  apply (format2_two_bytes "01000" "    " "COMPR" "A0" "A" "0" "S" "4" " "
           (Some "0") world0).
  - reflexivity.
  - discriminate.
  - reflexivity.
  - reflexivity.
  - reflexivity.
Defined.

(** A format-2 operand without a comma that is neither a register name nor
    a decimal number stops the assembler with ValueError and leaves the
    state as it was. *)
Theorem Format2_unknown_register (op oc operand : string) (w : world) :
  Py.get FORM2 op = Some oc ->
  has_char "," operand = false ->
  Py.contains REGS operand = false ->
  Py.int_of 10 operand = None ->
  Format2 op operand w = (Raise Py.ValueError, w).
Proof.
  intros Hop Hcomma Hreg Hint. unfold Format2. rewrite Hop. run.
  rewrite Hcomma, Hreg, Hint. reflexivity.
Qed.

(** [CLEAR Q]: there is no register Q. *)
Lemma Format2_unknown_register_witness :
  Format2 "CLEAR" "Q" world0 = (Raise Py.ValueError, world0).
Proof.
  apply (Format2_unknown_register "CLEAR" "B4" "Q" world0); reflexivity.
Defined.

(** ** Encoding Pass: the BASE directive *)

(** A BASE row writes no byte and gets an empty encoding; the rows after it
    are encoded with the base register set to the Symbol Table entry of its
    operand (to nothing at all when the operand is no label), whatever the
    register held before. *)
Theorem BASE_sets_base (addr label operand : string) (c : ascii)
    (basevar : option string) (rest : list (list string)) (w : world) :
  Py.getitem label 0 = Some c -> c <> "."%char ->
  SecondPass_loop basevar ([addr; label; "BASE"; operand] :: rest) w
  = match SecondPass_loop (SYMTAB w !! operand) rest w with
    | (Ret rows, w') => (Ret ([addr; label; "BASE"; operand; ""] :: rows), w')
    | (Raise e, w') => (Raise e, w')
    end.
Proof.
  intros Hl Hc. apply ascii_eqb_false in Hc.
  assert (HE : SecondPass_elem basevar [addr; label; "BASE"; operand] w
               = (Ret (SYMTAB w !! operand,
                       [addr; label; "BASE"; operand; ""]), w)).
  { unfold SecondPass_elem. run. tests. cbv beta iota.
    rewrite Hl. run. rewrite Hc. cbv beta iota. tests. cbv beta iota.
    cbn [chunks2 to_bytes]. run.
    destruct w as [loc sym out tgt]. cbn [LOCCTR SYMTAB stdout target].
    now rewrite (string_app_nil_r tgt). }
  cbn [SecondPass_loop]. unfold bind at 1. rewrite HE. cbn [fst snd].
  unfold bind at 1.
  destruct (SecondPass_loop (SYMTAB w !! operand) rest w) as [[rows | e] w'];
    reflexivity.
Qed.

(** [BASE A] with A at 0x1000, then [LDA A] at address 0: the label is out
    of reach of the program counter and is encoded against the base, at
    displacement 0. *)
Lemma BASE_sets_base_witness :
  SecondPass_loop (Some "0")
    [["00000"; "    "; "BASE"; "A"]; ["00000"; "    "; "LDA"; "A"]] world_base
  = (Ret [["00000"; "    "; "BASE"; "A"; ""];
          ["00000"; "    "; "LDA"; "A"; "034000"]],
     World 0 (SYMTAB world_base) []
       (String "003" (String "@" (String "000" "")))).
Proof.
  exact (BASE_sets_base "00000" "    " "A" " " (Some "0")
           [["00000"; "    "; "LDA"; "A"]] world_base eq_refl
           ltac:(discriminate)).
Defined.

(** ** Encoding Pass: a record is written whole or not at all *)

Section Keeps.
Context {T A B : Type} (f : world -> T).

Lemma keeps_ret (a : A) : keeps f (ret a).
Proof. intros w. reflexivity. Qed.

Lemma keeps_raise (e : Py.exn) : keeps f (@raise A e).
Proof. intros w. reflexivity. Qed.

Lemma keeps_or_raise (e : Py.exn) (o : option A) : keeps f (or_raise e o).
Proof. destruct o; intros w; reflexivity. Qed.

Lemma keeps_bind (m : M A) (k : A -> M B) :
  keeps f m -> (forall a, keeps f (k a)) -> keeps f (bind m k).
Proof.
  intros Hm Hk w. unfold bind. specialize (Hm w).
  destruct (m w) as [[a | e] w1]; simpl in *; [| exact Hm].
  rewrite (Hk a w1). exact Hm.
Qed.

End Keeps.

Lemma keeps_int_ {T} (f : world -> T) (base : Z) (x : option string) :
  keeps f (int_ base x).
Proof. destruct x as [s |]; [apply keeps_or_raise | intros w; reflexivity]. Qed.

Lemma keeps_concat_opt {T} (f : world -> T) (s : string) (x : option string) :
  keeps f (concat_opt s x).
Proof. destruct x; intros w; reflexivity. Qed.

Lemma keeps_get_SYMTAB {T} (f : world -> T) : keeps f get_SYMTAB.
Proof. intros w; reflexivity. Qed.

Lemma keeps_target_print (s : string) : keeps target (print s).
Proof. intros w; reflexivity. Qed.

Create HintDb keeps.
#[local] Hint Resolve keeps_ret keeps_raise keeps_or_raise keeps_int_
  keeps_concat_opt keeps_get_SYMTAB keeps_target_print : keeps.

Ltac keeps_step :=
  first
    [ progress cbv zeta
    | solve [ auto with keeps nocore ]
    | apply keeps_bind; [ | intros ? ]
    | match goal with
      | |- keeps _ (if ?b then _ else _) => destruct b
      | |- keeps _ (match ?x with _ => _ end) => destruct x
      end ].
Ltac keeps_tac := repeat keeps_step.

Lemma keeps_NIbits (operand : string) : keeps target (NIbits operand).
Proof. unfold NIbits, char_at. keeps_tac. Qed.
#[local] Hint Resolve keeps_NIbits : keeps.

Lemma keeps_FindOpcode (o : option string) (operand : string) :
  keeps target (FindOpcode o operand).
Proof. unfold FindOpcode. keeps_tac. Qed.
#[local] Hint Resolve keeps_FindOpcode : keeps.

Lemma keeps_out_of_PC_range (c : string) (l : option string) :
  keeps target (out_of_PC_range c l).
Proof. unfold out_of_PC_range. keeps_tac. Qed.
#[local] Hint Resolve keeps_out_of_PC_range : keeps.

Lemma keeps_XBPE (opcode operand curraddr : string) :
  keeps target (XBPE opcode operand curraddr).
Proof. unfold XBPE, char_at. keeps_tac. Qed.
#[local] Hint Resolve keeps_XBPE : keeps.

Lemma keeps_TwoComp (d : Z) : keeps target (TwoComp d).
Proof. unfold TwoComp. keeps_tac. Qed.
#[local] Hint Resolve keeps_TwoComp : keeps.

Lemma keeps_Format4 (opcode operand curraddr : string) :
  keeps target (Format4 opcode operand curraddr).
Proof. unfold Format4, char_at. keeps_tac. Qed.

Lemma keeps_Format3 (opcode operand curraddr : string)
    (baseaddr : option string) :
  keeps target (Format3 opcode operand curraddr baseaddr).
Proof. unfold Format3, char_at. keeps_tac. Qed.

Lemma keeps_Format2 (opcode operand : string) :
  keeps target (Format2 opcode operand).
Proof. unfold Format2, item. keeps_tac. Qed.

Lemma keeps_to_bytes (chunks : list string) : keeps target (to_bytes chunks).
Proof. induction chunks as [| ch rest IH]; simpl; keeps_tac. Qed.
#[local] Hint Resolve keeps_Format4 keeps_Format3 keeps_Format2 keeps_to_bytes
  : keeps.

Lemma keeps_atomic {A} (m : M A) : keeps target m -> atomic m.
Proof. intros H w e _. apply H. Qed.

Lemma atomic_bind {A B} (m : M A) (k : A -> M B) :
  keeps target m -> (forall a, atomic (k a)) -> atomic (bind m k).
Proof.
  intros Hm Hk w e. unfold bind. specialize (Hm w).
  destruct (m w) as [[a | e'] w1]; simpl in *; [| intros _; exact Hm].
  intros H. rewrite (Hk a w1 e H). exact Hm.
Qed.

Lemma atomic_write_ret {A} (s : string) (a : A) :
  atomic (write s ;;; ret a).
Proof. intros w e H. discriminate H. Qed.

(** When the encoding of a record raises an exception, for whatever reason,
    none of the record's bytes has been written: the file holds what it held
    before the record. *)
Theorem SecondPass_elem_atomic (basevar : option string) (elem : list string)
    (w : world) (e : Py.exn) :
  fst (SecondPass_elem basevar elem w) = Raise e ->
  target (snd (SecondPass_elem basevar elem w)) = target w.
Proof.
  revert w e. change (atomic (SecondPass_elem basevar elem)).
  unfold SecondPass_elem. cbv zeta.
  apply atomic_bind; [unfold item; keeps_tac | intros code].
  apply atomic_bind.
  - unfold FindForm, item, char_at. keeps_tac.
  - intros [[b i] |]; [| apply keeps_atomic; keeps_tac].
    apply atomic_bind; [keeps_tac | intros out]. apply atomic_write_ret.
Qed.

(** [BYTE X'4G'] after the bytes AB: the digit G is refused when the bytes
    are made, and the file still holds AB. *)
Lemma SecondPass_elem_atomic_witness :
  target (snd (SecondPass_elem (Some "0") ["01000"; "BAD"; "BYTE"; "X'4G'"]
                 (World 4099 ∅ [] "AB")))
  = target (World 4099 ∅ [] "AB").
Proof.
  apply (SecondPass_elem_atomic (Some "0") ["01000"; "BAD"; "BYTE"; "X'4G'"]
           (World 4099 ∅ [] "AB") Py.ValueError).
  reflexivity.
Defined.

(** ** The output file's name *)

(** For a source file name with an extension of four characters (the dot
    and three letters), the bytes go to the file of the same name with the
    extension [.exe]. *)
Theorem NewFile_replaces_extension (base ext : string) :
  String.length ext = 4%nat ->
  NewFile (base +:+ ext) = base +:+ ".exe".
Proof.
  intros Hext. unfold NewFile. f_equal.
  unfold Py.slice_to, Py.slice, Py.clamp, Py.len.
  rewrite string_length_app, Hext.
  destruct (Z.ltb_spec 0 0); [lia |].
  destruct (Z.ltb_spec (Z.of_nat (String.length base + 4) - 4) 0); [lia |].
  rewrite !Z.min_l by lia. change (Z.to_nat 0) with 0%nat. simpl Py.drop.
  replace (Z.to_nat (Z.of_nat (String.length base + 4) - 4 - 0))
    with (String.length base) by lia.
  apply string_take_app.
Qed.

Lemma NewFile_replaces_extension_witness :
  NewFile "copy.asm" = "copy.exe".
Proof. apply (NewFile_replaces_extension "copy" ".asm"). reflexivity. Defined.
